(** * Session management of [auth.py], embedded and verified

    The development follows [auth.py]: the credential check [verify_user]
    and the three session operations [create_session], [validate_session]
    and [destroy_session] over the module-level dictionaries [_USERS] and
    [_SESSION_STORE], together with the pieces of [app.py] that call them
    (the login form handler, the logout handler and the cookie auth gate).

    Conventions of the embedding:
    - a Python [str] that has a UTF-8 encoding is a [string], read as that
      byte sequence; where the code calls [encode()] on a [str], the
      argument is a [pystr], which may also be given by its code points,
      lone surrogates included, and [encode()] raises on those as it does
      in Python;
    - a [datetime] is the number of microseconds since 0001-01-01 00:00:00,
      a [timedelta] a number of microseconds, both in [Z];
    - the two sources of non-determinism are inputs of the operations that
      read them: the 128 random bits behind [uuid.uuid4()] and the reading
      of the clock [datetime.now()];
    - the dictionaries are [gmap]s, and every access to them is recorded in
      a log, so that statements about which accesses an operation performs
      can be made;
    - calls to [logger] are left out: they touch neither dictionary. *)

From Stdlib Require Import ZArith Ascii String Lia.
From stdpp Require Import gmap strings list fin_maps.

Local Open Scope Z_scope.

(** ** Hexadecimal formatting *)

Module Hex.

(** One lowercase hexadecimal digit, as [format(d, 'x')] for [0 <= d < 16]. *)
Definition hex_char (d : Z) : ascii :=
  if d <? 10 then ascii_of_N (Z.to_N (48 + d)) else ascii_of_N (Z.to_N (87 + d)).

(** The [k] low hexadecimal digits of [n], most significant first, in front
    of [acc]: ['%0kx' % n] when [0 <= n < 16^k]. *)
Fixpoint hex_pad (k : nat) (n : Z) (acc : string) : string :=
  match k with
  | O => acc
  | S k' => hex_pad k' (Z.shiftr n 4) (String (hex_char (Z.land n 15)) acc)
  end.

End Hex.

(** ** SHA-256 (FIPS 180-4), as computed by [hashlib.sha256] *)

Module Sha256.

Definition w32 (x : Z) : Z := Z.land x 0xffffffff.

Definition rotr (n x : Z) : Z :=
  Z.lor (Z.shiftr x n) (w32 (Z.shiftl x (32 - n))).

Definition Ch (x y z : Z) : Z :=
  Z.lxor (Z.land x y) (Z.land (Z.lxor x 0xffffffff) z).

Definition Maj (x y z : Z) : Z :=
  Z.lxor (Z.lxor (Z.land x y) (Z.land x z)) (Z.land y z).

Definition bsig0 (x : Z) : Z := Z.lxor (Z.lxor (rotr 2 x) (rotr 13 x)) (rotr 22 x).
Definition bsig1 (x : Z) : Z := Z.lxor (Z.lxor (rotr 6 x) (rotr 11 x)) (rotr 25 x).
Definition ssig0 (x : Z) : Z := Z.lxor (Z.lxor (rotr 7 x) (rotr 18 x)) (Z.shiftr x 3).
Definition ssig1 (x : Z) : Z := Z.lxor (Z.lxor (rotr 17 x) (rotr 19 x)) (Z.shiftr x 10).

(** The constants of the standard are defined from the first primes: the
    first 32 bits of the fractional part of the cube root of each of the
    first 64 primes for [K], of the square root of each of the first 8 for
    the initial hash value. *)
Definition is_prime (n : Z) : bool :=
  forallb (fun d => negb (n mod Z.of_nat d =? 0)) (seq 2 (Z.to_nat n - 2)).

Definition first_primes (count : nat) : list Z :=
  take count (List.filter is_prime (map Z.of_nat (seq 2 320))).

(** The integer cube root of [n], found bit by bit from bit [bits - 1]
    down, starting from [r]. *)
Fixpoint cube_root (bits : nat) (n r : Z) : Z :=
  match bits with
  | O => r
  | S b =>
      let c := Z.lor r (Z.shiftl 1 (Z.of_nat b)) in
      cube_root b n (if c * c * c <=? n then c else r)
  end.

Definition K : list Z :=
  Eval vm_compute in
    map (fun p => w32 (cube_root 40 (Z.shiftl p 96) 0)) (first_primes 64).

(** The eight working variables, and the hash value between blocks. *)
Record regs := Regs { ra : Z; rb : Z; rc : Z; rd : Z; re : Z; rf : Z; rg : Z; rh : Z }.

Definition regs_of_list (l : list Z) : regs :=
  Regs (nth 0 l 0) (nth 1 l 0) (nth 2 l 0) (nth 3 l 0)
       (nth 4 l 0) (nth 5 l 0) (nth 6 l 0) (nth 7 l 0).

Definition H0 : regs :=
  Eval vm_compute in
    regs_of_list (map (fun p => w32 (Z.sqrt (Z.shiftl p 64))) (first_primes 8)).

Fixpoint bytes_of_string (s : string) : list Z :=
  match s with
  | EmptyString => []
  | String c s' => Z.of_N (N_of_ascii c) :: bytes_of_string s'
  end.

(** The [k] low bytes of [n], most significant first, in front of [acc]. *)
Fixpoint be_bytes (k : nat) (n : Z) (acc : list Z) : list Z :=
  match k with
  | O => acc
  | S k' => be_bytes k' (Z.shiftr n 8) (Z.land n 255 :: acc)
  end.

(** Padding: a one bit, zero bits up to 448 modulo 512, the bit length on
    64 bits. *)
Definition pad (m : list Z) : list Z :=
  let l := Z.of_nat (List.length m) in
  m ++ 128 :: repeat 0 (Z.to_nat ((55 - l) mod 64)) ++ be_bytes 8 (8 * l) [].

Fixpoint words (bs : list Z) : list Z :=
  match bs with
  | b0 :: b1 :: b2 :: b3 :: r =>
      Z.lor (Z.shiftl b0 24) (Z.lor (Z.shiftl b1 16) (Z.lor (Z.shiftl b2 8) b3))
      :: words r
  | _ => []
  end.

(** Message schedule: [n] more words after the [length w] already there. *)
Fixpoint schedule (n : nat) (w : list Z) : list Z :=
  match n with
  | O => w
  | S n' =>
      let t := List.length w in
      let g (i : nat) := nth (t - i)%nat w 0 in
      schedule n' (w ++ [w32 (ssig1 (g 2%nat) + g 7%nat + ssig0 (g 15%nat) + g 16%nat)])
  end.

Definition round (s : regs) (kw : Z * Z) : regs :=
  let t1 := w32 (rh s + bsig1 (re s) + Ch (re s) (rf s) (rg s) + kw.1 + kw.2) in
  let t2 := w32 (bsig0 (ra s) + Maj (ra s) (rb s) (rc s)) in
  Regs (w32 (t1 + t2)) (ra s) (rb s) (rc s) (w32 (rd s + t1)) (re s) (rf s) (rg s).

Definition compress (h : regs) (block : list Z) : regs :=
  let s := foldl round h (zip K (schedule 48 block)) in
  Regs (w32 (ra h + ra s)) (w32 (rb h + rb s)) (w32 (rc h + rc s)) (w32 (rd h + rd s))
       (w32 (re h + re s)) (w32 (rf h + rf s)) (w32 (rg h + rg s)) (w32 (rh h + rh s)).

Fixpoint blocks (fuel : nat) (ws : list Z) (h : regs) : regs :=
  match fuel, ws with
  | S fuel', _ :: _ => blocks fuel' (drop 16 ws) (compress h (take 16 ws))
  | _, _ => h
  end.

Definition digest (m : list Z) : regs :=
  let ws := words (pad m) in blocks (List.length ws) ws H0.

(** [hashlib.sha256(s.encode()).hexdigest()]: 64 lowercase hex digits. *)
Definition sha256_hexdigest (s : string) : string :=
  let h := digest (bytes_of_string s) in
  foldr (fun w acc => Hex.hex_pad 8 w acc) EmptyString
        [ra h; rb h; rc h; rd h; re h; rf h; rg h; rh h].

End Sha256.

(** ** [uuid.uuid4()] and [str] of a UUID *)

Module Uuid.

(** [UUID(bytes=os.urandom(16), version=4)]: the 128 random bits with the
    RFC 4122 variant and the version number 4 forced. *)
Definition uuid4 (rnd : Z) : Z :=
  let i := Z.land rnd (Z.ones 128) in
  let i := Z.land i (Z.lnot (Z.shiftl 0xc000 48)) in
  let i := Z.lor i (Z.shiftl 0x8000 48) in
  let i := Z.land i (Z.lnot (Z.shiftl 0xf000 64)) in
  Z.lor i (Z.shiftl 4 76).

(** [UUID.__str__]: the 32 hex digits grouped 8-4-4-4-12. *)
Definition uuid_str (i : Z) : string :=
  let hex := Hex.hex_pad 32 i EmptyString in
  String.append (substring 0 8 hex) (String "-"
    (String.append (substring 8 4 hex) (String "-"
      (String.append (substring 12 4 hex) (String "-"
        (String.append (substring 16 4 hex) (String "-"
          (substring 20 12 hex)))))))).

End Uuid.

(** ** Python [str] values and [str.encode()] *)

Module Str.

(** A [str] on which [encode()] is called. It is given either by its UTF-8
    encoding, when it is a text that has one, or by its code points, among
    which there may be lone surrogates. *)
Inductive pystr : Type :=
| Utf8 (bytes : string)
| Codepoints (cps : list Z).

Definition byte (b : Z) : ascii := ascii_of_N (Z.to_N b).

(** The UTF-8 bytes of one code point under the [strict] error handler:
    none for a surrogate, U+D800 to U+DFFF, and none outside U+0000 to
    U+10FFFF, which no [str] holds. *)
Definition utf8_char (cp : Z) : option string :=
  if cp <? 0 then None
  else if cp <? 0x80 then Some (String (byte cp) EmptyString)
  else if cp <? 0x800 then
    Some (String (byte (Z.lor 0xC0 (Z.shiftr cp 6)))
         (String (byte (Z.lor 0x80 (Z.land cp 0x3F))) EmptyString))
  else if (0xD800 <=? cp) && (cp <=? 0xDFFF) then None
  else if cp <? 0x10000 then
    Some (String (byte (Z.lor 0xE0 (Z.shiftr cp 12)))
         (String (byte (Z.lor 0x80 (Z.land (Z.shiftr cp 6) 0x3F)))
         (String (byte (Z.lor 0x80 (Z.land cp 0x3F))) EmptyString)))
  else if cp <? 0x110000 then
    Some (String (byte (Z.lor 0xF0 (Z.shiftr cp 18)))
         (String (byte (Z.lor 0x80 (Z.land (Z.shiftr cp 12) 0x3F)))
         (String (byte (Z.lor 0x80 (Z.land (Z.shiftr cp 6) 0x3F)))
         (String (byte (Z.lor 0x80 (Z.land cp 0x3F))) EmptyString))))
  else None.

Fixpoint utf8_encode (cps : list Z) : option string :=
  match cps with
  | [] => Some EmptyString
  | cp :: cps' =>
      match utf8_char cp, utf8_encode cps' with
      | Some b, Some bs => Some (String.append b bs)
      | _, _ => None
      end
  end.

(** The UTF-8 encoding of a [str], if it has one. *)
Definition utf8_of (s : pystr) : option string :=
  match s with
  | Utf8 bytes => Some bytes
  | Codepoints cps => utf8_encode cps
  end.

End Str.

(** ** The module [auth.py] *)

Module Auth.

Import Str.

(** The exceptions the modelled statements can raise: [del d[k]] on a
    missing key, date arithmetic leaving the range of [datetime] or of
    [timedelta], and [encode()] on a [str] that holds a lone surrogate. *)
Inductive exn : Type :=
| KeyError (key : string)
| OverflowError
| UnicodeEncodeError.

Inductive result (A : Type) : Type :=
| Ok (a : A)
| Raise (e : exn).
Arguments Ok {A} a.
Arguments Raise {A} e.

(** A value of [_SESSION_STORE]: the dictionary with the keys ["username"],
    ["created_at"] and ["expires_at"]. *)
Record session : Type := Session {
  username : string;
  created_at : Z;
  expires_at : Z
}.

(** One access to a module-level dictionary. *)
Inductive access : Type :=
| UsersGet (u : string)       (* _USERS.get(u) *)
| StoreGet (token : string)   (* _SESSION_STORE.get(token) *)
| StoreSet (token : string)   (* _SESSION_STORE[token] = ... *)
| StoreDel (token : string)   (* del _SESSION_STORE[token] *)
| StorePop (token : string).  (* _SESSION_STORE.pop(token, None) *)

(** The module-level names of [auth.py], and the log of the accesses made
    to the two dictionaries so far. *)
Record globals : Type := Globals {
  SESSION_DURATION_HOURS : Z;
  _USERS : gmap string string;
  _SESSION_STORE : gmap string session;
  accesses : list access
}.

Definition COOKIE_NAME : string := "auth_session".

(** *** Statements as state transformers that may raise *)

Definition M (A : Type) : Type := globals -> result A * globals.

Definition ret {A : Type} (a : A) : M A := fun g => (Ok a, g).

Definition raise {A : Type} (e : exn) : M A := fun g => (Raise e, g).

Definition bind {A B : Type} (m : M A) (k : A -> M B) : M B :=
  fun g =>
    match m g with
    | (Ok a, g') => k a g'
    | (Raise e, g') => (Raise e, g')
    end.

Notation "'let*' x ':=' m 'in' k" := (bind m (fun x => k))
  (at level 10, x pattern, m at level 100, k at level 200).

Definition logged (a : access) (g : globals) : globals :=
  Globals (SESSION_DURATION_HOURS g) (_USERS g) (_SESSION_STORE g) (accesses g ++ [a]).

Definition with_store (st : gmap string session) (g : globals) : globals :=
  Globals (SESSION_DURATION_HOURS g) (_USERS g) st (accesses g).

(** [_USERS.get(u)] *)
Definition users_get (u : string) : M (option string) :=
  fun g => (Ok (_USERS g !! u), logged (UsersGet u) g).

(** [_SESSION_STORE.get(token)] *)
Definition store_get (token : string) : M (option session) :=
  fun g => (Ok (_SESSION_STORE g !! token), logged (StoreGet token) g).

(** [_SESSION_STORE[token] = s] *)
Definition store_setitem (token : string) (s : session) : M unit :=
  fun g => (Ok tt, logged (StoreSet token) (with_store (<[token := s]> (_SESSION_STORE g)) g)).

(** [del _SESSION_STORE[token]]: [KeyError] when the key is missing. *)
Definition store_delitem (token : string) : M unit :=
  fun g =>
    match _SESSION_STORE g !! token with
    | Some _ => (Ok tt, logged (StoreDel token) (with_store (delete token (_SESSION_STORE g)) g))
    | None => (Raise (KeyError token), logged (StoreDel token) g)
    end.

(** [_SESSION_STORE.pop(token, None)] *)
Definition store_pop (token : string) : M (option session) :=
  fun g => (Ok (_SESSION_STORE g !! token),
            logged (StorePop token) (with_store (delete token (_SESSION_STORE g)) g)).

(** Reading the global [SESSION_DURATION_HOURS]. *)
Definition duration_hours : M Z := fun g => (Ok (SESSION_DURATION_HOURS g), g).

(** *** Dates *)

Definition US_PER_HOUR : Z := 3600000000.
Definition US_PER_DAY : Z := 86400000000.

(** [datetime.max], 9999-12-31 23:59:59.999999, in microseconds since
    [datetime.min]. *)
Definition DATETIME_MAX : Z := 3652059 * US_PER_DAY - 1.

(** [timedelta(hours=h)]: [OverflowError] beyond 999999999 days. *)
Definition timedelta_hours (h : Z) : M Z :=
  let us := h * US_PER_HOUR in
  if (-999999999 * US_PER_DAY <=? us) && (us <? 1000000000 * US_PER_DAY)
  then ret us else raise OverflowError.

(** [d + delta] on a [datetime]: [OverflowError] outside years 1..9999. *)
Definition datetime_add (d delta : Z) : M Z :=
  let r := d + delta in
  if (0 <=? r) && (r <=? DATETIME_MAX) then ret r else raise OverflowError.

(** Truth value of a [str]: false exactly for the empty string. *)
Definition truthy (s : string) : bool :=
  match s with EmptyString => false | String _ _ => true end.

(** *** The four operations *)

(** [s.encode()]: [UnicodeEncodeError] when [s] has no UTF-8 encoding. *)
Definition str_encode (s : pystr) : M string :=
  match utf8_of s with
  | Some bytes => ret bytes
  | None => raise UnicodeEncodeError
  end.

Definition verify_user (username : string) (password : pystr) : M bool :=
  let* encoded := str_encode password in
  let password_hash := Sha256.sha256_hexdigest encoded in
  let* stored_hash := users_get username in
  match stored_hash with
  | None => ret false
  | Some stored_hash => ret (String.eqb stored_hash password_hash)
  end.

(** [rnd] is what [os.urandom(16)] yields, [now] what [datetime.now()]
    reads. *)
Definition create_session (rnd now : Z) (username : string) : M string :=
  let token := Uuid.uuid_str (Uuid.uuid4 rnd) in
  let* hours := duration_hours in
  let* delta := timedelta_hours hours in
  let* expires := datetime_add now delta in
  let* _ := store_setitem token (Session username now expires) in
  ret token.

(** [now] is what [datetime.now()] reads, if the call gets that far. *)
Definition validate_session (now : Z) (token : string) : M (option string) :=
  if negb (truthy token) then ret None
  else
    let* session := store_get token in
    match session with
    | None => ret None
    | Some session =>
        if now >? expires_at session then
          let* _ := store_delitem token in
          ret None
        else ret (Some (username session))
    end.

Definition destroy_session (token : string) : M unit :=
  let* removed := store_pop token in
  ret tt.

(** *** The callers in [app.py] *)

(** What a submitted login form leads to: the "enter both" error, a
    session whose token is sent to [cookie_manager.set], or the "invalid"
    error. *)
Inductive login_outcome : Type :=
| EnterBoth
| LoggedIn (token : string)
| InvalidCredentials.

(** The [if submitted:] branch of [_show_login_form]. The two values come
    from [st.text_input]: texts, given by their UTF-8 encoding. *)
Definition login_submitted (rnd now : Z) (username password : string) : M login_outcome :=
  if negb (truthy username) || negb (truthy password) then ret EnterBoth
  else
    let* ok := verify_user username (Utf8 password) in
    if ok then
      let* token := create_session rnd now username in
      ret (LoggedIn token)
    else ret InvalidCredentials.

(** [_logout]: [token] is [st.session_state.get("token")]. *)
Definition logout (token : option string) : M unit :=
  match token with
  | Some token => if truthy token then destroy_session token else ret tt
  | None => ret tt
  end.

(** The cookie jar of a browser: cookie name to value. [cookie_manager.set]
    and [cookie_manager.delete] act on it, [st.context.cookies] reads what
    the next request presents. *)
Definition cookie_set (name value : string) (jar : gmap string string) : gmap string string :=
  <[name := value]> jar.

Definition cookie_delete (name : string) (jar : gmap string string) : gmap string string :=
  delete name jar.

(** [st.context.cookies.get(COOKIE_NAME)] *)
Definition request_cookie (cookies : gmap string string) : option string :=
  cookies !! COOKIE_NAME.

(** The auth gate of [app.py] for a tab that is not yet authenticated: the
    identity [(username, token)] restored from the cookie, if any. *)
Definition auth_gate (now : Z) (cookies : gmap string string) : M (option (string * string)) :=
  match request_cookie cookies with
  | None => ret None
  | Some token =>
      if truthy token then
        let* user := validate_session now token in
        match user with
        | Some u => if truthy u then ret (Some (u, token)) else ret None
        | None => ret None
        end
      else ret None
  end.

(** *** Runs of the module *)

(** The module right after import, for a configured duration and a
    provisioned credential table. *)
Definition boot (hours : Z) (users : gmap string string) : globals :=
  Globals hours users ∅ [].

(** [auth.py] as shipped. *)
Definition shipped : globals :=
  boot 24 (<["test1"%string := Sha256.sha256_hexdigest "test1"]>
           (<["test2"%string := Sha256.sha256_hexdigest "test2"]> ∅)).

(** A call into the module from some client flow, with what the
    environment hands to it. *)
Inductive call : Type :=
| Verify (username : string) (password : pystr)
| Create (rnd now : Z) (username : string)
| Validate (now : Z) (token : string)
| Destroy (token : string).

(** What a call returns or raises, and the globals it leaves, whether it
    returned or raised. *)
Definition returned {A : Type} (m : M A) (g : globals) : result A := (m g).1.

Definition after {A : Type} (m : M A) (g : globals) : globals := (m g).2.

Definition exec (c : call) (g : globals) : globals :=
  match c with
  | Verify u p => after (verify_user u p) g
  | Create rnd now u => after (create_session rnd now u) g
  | Validate now token => after (validate_session now token) g
  | Destroy token => after (destroy_session token) g
  end.

Definition run (cs : list call) (g : globals) : globals := foldl (fun g c => exec c g) g cs.

(** The states the module can be in: booted, then called any number of
    times. Nothing else writes to the dictionaries. *)
Inductive reachable : globals -> Prop :=
| reachable_boot hours users : reachable (boot hours users)
| reachable_exec c g : reachable g -> reachable (exec c g).

(** The token [create_session] returns when the random bits are [rnd]. *)
Definition token_of (rnd : Z) : string := Uuid.uuid_str (Uuid.uuid4 rnd).

(** The expiry computed at clock reading [now] is a [datetime]: neither
    [timedelta(hours=...)] nor the addition overflows. With the shipped 24
    hours this holds for every [now] up to 9999-12-30 23:59:59.999999. *)
Definition expiry_representable (g : globals) (now : Z) : Prop :=
  let delta := SESSION_DURATION_HOURS g * US_PER_HOUR in
  (-999999999 * US_PER_DAY <= delta < 1000000000 * US_PER_DAY)
  /\ 0 <= now + delta <= DATETIME_MAX.

(** The expiry of a session created at [now]. *)
Definition expiry (g : globals) (now : Z) : Z := now + SESSION_DURATION_HOURS g * US_PER_HOUR.

(** A call that leaves the session under [token], valid until [expires],
    in place: it is neither a [create_session] that draws the same token,
    nor a [validate_session] of it past its expiry, nor a
    [destroy_session] of it. *)
Definition leaves (token : string) (expires : Z) (c : call) : Prop :=
  match c with
  | Verify _ _ => True
  | Create rnd _ _ => token_of rnd <> token
  | Validate now tok => tok = token -> now <= expires
  | Destroy tok => tok <> token
  end.

(** A [create_session] call that draws another token than [token]. *)
Definition creates_other (token : string) (c : call) : Prop :=
  match c with
  | Create rnd _ _ => token_of rnd <> token
  | _ => False
  end.

End Auth.

(** ** The script [app.py] *)

Module App.

Import Str Auth.

(** [st.session_state] of one browser tab: each of the three keys of the
    script is absent or present; ["username"] and ["token"] hold [None] or
    a [str]. *)
Record session_state : Type := SessionState {
  ss_authenticated : option bool;
  ss_username : option (option string);
  ss_token : option (option string)
}.

(** What a run of the script sends to the browser, in order. Static text
    is left out; the elements kept are those the control flow chooses
    between, and the two cookie instructions handed to [cookie_manager]. *)
Inductive element : Type :=
| LoginForm                                             (* st.form("login_form") *)
| ErrorBox (msg : string)                               (* st.error(msg) *)
| TestAccounts                                          (* the hint under the form *)
| CookieSet (name value : string) (expires_at : Z)      (* cookie_manager.set *)
| CookieDelete (name : string)                          (* cookie_manager.delete *)
| Sidebar (welcome : option string)                     (* "Welcome, {username}" and the links *)
| PageRun.                                              (* pg.run() *)

(** What one run of the script is given: the cookies of the request, the
    widget events that triggered the run, and what the environment yields
    when the run asks for random bits or reads the clock. *)
Record request : Type := Request {
  rq_cookies : gmap string string;
  rq_submitted : option (string * string);  (* login form submitted with these values *)
  rq_logout : bool;                         (* st.button("Logout") clicked *)
  rq_rnd : Z;                               (* os.urandom(16) in create_session *)
  rq_gate_now : Z;                          (* datetime.now() in validate_session *)
  rq_login_now : Z;                         (* datetime.now() in create_session *)
  rq_login_utcnow : Z;                      (* datetime.now(timezone.utc) in the form handler *)
  rq_delete_keyerror : bool                 (* cookie_manager.delete raises KeyError *)
}.

(** The globals of [auth.py], shared by all tabs, the session state of the
    tab that runs the script, and what the run has rendered so far. *)
Record world : Type := World {
  auth : globals;
  state : session_state;
  rendered : list element
}.

Inductive app_exn : Type :=
| AuthExn (e : exn)
| AttributeError (key : string)
| CookieKeyError (name : string).

(** How a piece of the script ends: it returns, it calls [st.stop()], or
    it raises. *)
Inductive ended (X : Type) : Type :=
| Returned (x : X)
| Stopped
| Raised (e : app_exn).
Arguments Returned {X} x.
Arguments Stopped {X}.
Arguments Raised {X} e.

Definition A (X : Type) : Type := world -> ended X * world.

Definition aret {X : Type} (x : X) : A X := fun w => (Returned x, w).

Definition abind {X Y : Type} (m : A X) (k : X -> A Y) : A Y :=
  fun w =>
    match m w with
    | (Returned x, w') => k x w'
    | (Stopped, w') => (Stopped, w')
    | (Raised e, w') => (Raised e, w')
    end.

Notation "'let+' x ':=' m 'in' k" := (abind m (fun x => k))
  (at level 10, x pattern, m at level 100, k at level 200).

(** [st.stop()] *)
Definition stop {X : Type} : A X := fun w => (Stopped, w).

(** A call into [auth.py]. *)
Definition lift {X : Type} (m : M X) : A X :=
  fun w =>
    match m (auth w) with
    | (Ok x, g) => (Returned x, World g (state w) (rendered w))
    | (Raise e, g) => (Raised (AuthExn e), World g (state w) (rendered w))
    end.

Definition render (e : element) : A unit :=
  fun w => (Returned tt, World (auth w) (state w) (rendered w ++ [e])).

(** [st.session_state.authenticated]: attribute access raises on a
    missing key. *)
Definition get_authenticated : A bool :=
  fun w =>
    match ss_authenticated (state w) with
    | Some b => (Returned b, w)
    | None => (Raised (AttributeError "authenticated"), w)
    end.

(** [st.session_state.username] *)
Definition get_username : A (option string) :=
  fun w =>
    match ss_username (state w) with
    | Some u => (Returned u, w)
    | None => (Raised (AttributeError "username"), w)
    end.

(** [st.session_state.get("token")]: [None] on a missing key. *)
Definition session_token (ss : session_state) : option string :=
  match ss_token ss with
  | Some t => t
  | None => None
  end.

(** The three assignments [st.session_state.authenticated = a],
    [.username = u], [.token = t]. *)
Definition set_identity (a : bool) (u t : option string) : A unit :=
  fun w => (Returned tt, World (auth w) (SessionState (Some a) (Some u) (Some t)) (rendered w)).

(** The loop of [_init_session_state]: a key gets its default only when it
    is not in the session state. *)
Definition init_defaults (ss : session_state) : session_state :=
  SessionState
    (match ss_authenticated ss with Some b => Some b | None => Some false end)
    (match ss_username ss with Some u => Some u | None => Some None end)
    (match ss_token ss with Some t => Some t | None => Some None end).

Definition _init_session_state : A unit :=
  fun w => (Returned tt, World (auth w) (init_defaults (state w)) (rendered w)).

Definition MSG_ENTER_BOTH : string := "Please enter both username and password.".
Definition MSG_INVALID : string := "Invalid username or password.".

Definition _show_login_form (rq : request) : A unit :=
  let+ _ := render LoginForm in
  match rq_submitted rq with
  | Some (username, password) =>
      if negb (truthy username) || negb (truthy password) then
        render (ErrorBox MSG_ENTER_BOTH)
      else
        let+ ok := lift (verify_user username (Utf8 password)) in
        if ok then
          let+ token := lift (create_session (rq_rnd rq) (rq_login_now rq) username) in
          let+ _ := set_identity true (Some username) (Some token) in
          let+ hours := lift duration_hours in
          let+ delta := lift (timedelta_hours hours) in
          let+ expires := lift (datetime_add (rq_login_utcnow rq) delta) in
          let+ _ := render (CookieSet COOKIE_NAME token expires) in
          stop
        else
          let+ _ := render (ErrorBox MSG_INVALID) in
          render TestAccounts
  | None => render TestAccounts
  end.

(** [cookie_manager.delete(name)] of the library
    extra-streamlit-components, which is not part of the repository: it
    hands the delete instruction to its component and then removes the
    cookie from the manager's own dict of cookies, which raises
    [KeyError(name)] when that dict does not hold the cookie. What the
    manager's dict holds is the environment's to say. *)
Definition cookie_manager_delete (rq : request) (name : string) : A unit :=
  let+ _ := render (CookieDelete name) in
  if rq_delete_keyerror rq then (fun w => (Raised (CookieKeyError name), w)) else aret tt.

Definition _logout (rq : request) : A unit :=
  let+ token := (fun w => (Returned (session_token (state w)), w)) in
  let+ _ := match token with
            | Some token => if truthy token then lift (destroy_session token) else aret tt
            | None => aret tt
            end in
  let+ _ := set_identity false None None in
  let+ _ := cookie_manager_delete rq COOKIE_NAME in
  stop.

(** The first half of the block under
    [if not st.session_state.authenticated:]: the identity is restored
    from the cookie of the request when its token validates to a non-empty
    username. *)
Definition restore_from_cookie (rq : request) : A unit :=
  match request_cookie (rq_cookies rq) with
  | Some token =>
      if truthy token then
        let+ user := lift (validate_session (rq_gate_now rq) token) in
        match user with
        | Some u =>
            if truthy u then set_identity true (Some u) (Some token) else aret tt
        | None => aret tt
        end
      else aret tt
  | None => aret tt
  end.

(** The block under [if not st.session_state.authenticated:]. *)
Definition gate (rq : request) : A unit :=
  let+ _ := restore_from_cookie rq in
  let+ authenticated := get_authenticated in
  if negb authenticated then
    let+ _ := _show_login_form rq in
    stop
  else aret tt.

(** What follows the gate: the sidebar with the logout button, then the
    selected page. *)
Definition authenticated_part (rq : request) : A unit :=
  let+ username := get_username in
  let+ _ := render (Sidebar username) in
  let+ _ := (if rq_logout rq then _logout rq else aret tt) in
  render PageRun.

(** One run of [app.py], top to bottom. *)
Definition script (rq : request) : A unit :=
  let+ _ := _init_session_state in
  let+ authenticated := get_authenticated in
  let+ _ := (if negb authenticated then gate rq else aret tt) in
  authenticated_part rq.

(** A tab that has not run the script yet. *)
Definition fresh_tab : session_state := SessionState None None None.

(** The run of the script by a tab in state [ss] over the globals [g]. *)
Definition serve (rq : request) (ss : session_state) (g : globals) : ended unit * world :=
  script rq (World g ss []).

(** The browser executing the cookie instructions a run rendered. *)
Definition apply_cookies (out : list element) (jar : gmap string string) : gmap string string :=
  foldl (fun jar e =>
           match e with
           | CookieSet name value _ => cookie_set name value jar
           | CookieDelete name => cookie_delete name jar
           | _ => jar
           end) jar out.

(** The globals after serving a list of runs, each by a tab in some
    state. *)
Definition serve_all (runs : list (request * session_state)) (g : globals) : globals :=
  foldl (fun g r => auth (serve r.1 r.2 g).2) g runs.

(** *** [pages/home.py] *)

(** [st.session_state.get("username", "User")] inside the f-string. *)
Definition home_greeting (ss : session_state) : string :=
  match ss_username ss with
  | None => "User"
  | Some None => "None"
  | Some (Some u) => u
  end.

(** [str(st.session_state.get('token', ''))[:8]] *)
Definition home_token_prefix (ss : session_state) : string :=
  substring 0 8 (match ss_token ss with
                 | None => ""
                 | Some None => "None"
                 | Some (Some t) => t
                 end).

(** The session state after the cookie of the request was looked at by a
    tab in state [ss]. *)
Definition restored (rq : request) (g : globals) (ss : session_state) : session_state :=
  match returned (auth_gate (rq_gate_now rq) (rq_cookies rq)) g with
  | Ok (Some (u, token)) => SessionState (Some true) (Some (Some u)) (Some (Some token))
  | _ => ss
  end.

(** The session state [_logout] leaves. *)
Definition signed_out : session_state := SessionState (Some false) (Some None) (Some None).

(** The globals after the login form handler has looked [u] up and
    stored a session for it. *)
Definition logged_in (rq : request) (u : string) (g : globals) : globals :=
  logged (StoreSet (token_of (rq_rnd rq)))
    (with_store
       (<[token_of (rq_rnd rq) := Session u (rq_login_now rq) (expiry g (rq_login_now rq))]>
          (_SESSION_STORE g))
       (logged (UsersGet u) g)).

(** How a pass through [_show_login_form] goes, by what was submitted. *)
Inductive form_pass (rq : request) (w : world) : ended unit * world -> Prop :=
| pass_idle :
    rq_submitted rq = None ->
    form_pass rq w
      (Returned tt, World (auth w) (state w) ((rendered w ++ [LoginForm]) ++ [TestAccounts]))
| pass_empty u p :
    rq_submitted rq = Some (u, p) ->
    truthy u = false \/ truthy p = false ->
    form_pass rq w
      (Returned tt,
       World (auth w) (state w) ((rendered w ++ [LoginForm]) ++ [ErrorBox MSG_ENTER_BOTH]))
| pass_invalid u p :
    rq_submitted rq = Some (u, p) -> truthy u = true -> truthy p = true ->
    returned (verify_user u (Utf8 p)) (auth w) = Ok false ->
    form_pass rq w
      (Returned tt,
       World (logged (UsersGet u) (auth w)) (state w)
         (((rendered w ++ [LoginForm]) ++ [ErrorBox MSG_INVALID]) ++ [TestAccounts]))
| pass_no_session u p :
    rq_submitted rq = Some (u, p) -> truthy u = true -> truthy p = true ->
    returned (verify_user u (Utf8 p)) (auth w) = Ok true ->
    ~ expiry_representable (auth w) (rq_login_now rq) ->
    form_pass rq w
      (Raised (AuthExn OverflowError),
       World (logged (UsersGet u) (auth w)) (state w) (rendered w ++ [LoginForm]))
| pass_no_cookie u p :
    rq_submitted rq = Some (u, p) -> truthy u = true -> truthy p = true ->
    returned (verify_user u (Utf8 p)) (auth w) = Ok true ->
    expiry_representable (auth w) (rq_login_now rq) ->
    ~ expiry_representable (auth w) (rq_login_utcnow rq) ->
    form_pass rq w
      (Raised (AuthExn OverflowError),
       World (logged_in rq u (auth w))
         (SessionState (Some true) (Some (Some u)) (Some (Some (token_of (rq_rnd rq)))))
         (rendered w ++ [LoginForm]))
| pass_logged_in u p :
    rq_submitted rq = Some (u, p) -> truthy u = true -> truthy p = true ->
    returned (verify_user u (Utf8 p)) (auth w) = Ok true ->
    expiry_representable (auth w) (rq_login_now rq) ->
    expiry_representable (auth w) (rq_login_utcnow rq) ->
    form_pass rq w
      (Stopped,
       World (logged_in rq u (auth w))
         (SessionState (Some true) (Some (Some u)) (Some (Some (token_of (rq_rnd rq)))))
         ((rendered w ++ [LoginForm])
          ++ [CookieSet COOKIE_NAME (token_of (rq_rnd rq)) (expiry (auth w) (rq_login_utcnow rq))])).

End App.

(** ** Runs of [auth.py], continued *)

Module Runs.

Import Str Auth.

(** The call is a [create_session] that draws [token]. *)
Definition draws (token : string) (c : call) : Prop :=
  match c with
  | Create rnd _ _ => token_of rnd = token
  | _ => False
  end.

Definition is_create (c : call) : bool :=
  match c with
  | Create _ _ _ => true
  | _ => false
  end.

(** [c] is a [create_session] call that, over globals with duration
    [hours], stores the session [s] under [token]. *)
Definition made_by (hours : Z) (c : call) (token : string) (s : session) : Prop :=
  match c with
  | Create rnd now u =>
      token = token_of rnd
      /\ s = Session u now (now + hours * US_PER_HOUR)
      /\ 0 <= now + hours * US_PER_HOUR <= DATETIME_MAX
  | _ => False
  end.

End Runs.

Example sha_abc :
  Sha256.sha256_hexdigest "abc"
  = "ba7816bf8f01cfea414140de5dae2223b00361a396177a9cb410ff61f20015ad"%string.
Proof. vm_compute. reflexivity. Qed.
Import Str Auth.

Lemma token_truthy rnd : truthy (token_of rnd) = true.
Proof.
  unfold token_of, Uuid.uuid_str.
  destruct (substring 0 8 _); reflexivity.
Qed.

Ltac unfold_ops :=
  unfold returned, after, verify_user, str_encode, create_session, validate_session,
    destroy_session,
    login_submitted, auth_gate, users_get, store_get, store_setitem, store_delitem, store_pop,
    duration_hours, timedelta_hours, datetime_add, bind, ret, raise in *.

Lemma validate_session_empty now g :
  validate_session now "" g = (Ok None, g).
Proof. reflexivity. Qed.

Lemma validate_session_missing now token g :
  truthy token = true -> _SESSION_STORE g !! token = None ->
  validate_session now token g = (Ok None, logged (StoreGet token) g).
Proof.
  intros Ht Hl. unfold_ops. rewrite Ht. simpl. rewrite Hl. reflexivity.
Qed.

Lemma validate_session_live now token s g :
  truthy token = true -> _SESSION_STORE g !! token = Some s -> now <= expires_at s ->
  validate_session now token g = (Ok (Some (username s)), logged (StoreGet token) g).
Proof.
  intros Ht Hl Hle. unfold_ops. rewrite Ht. simpl. rewrite Hl.
  rewrite Z.gtb_ltb. destruct (Z.ltb_spec (expires_at s) now); [lia | reflexivity].
Qed.

Lemma validate_session_expired now token s g :
  truthy token = true -> _SESSION_STORE g !! token = Some s -> expires_at s < now ->
  validate_session now token g
  = (Ok None, logged (StoreDel token)
                (with_store (delete token (_SESSION_STORE g)) (logged (StoreGet token) g))).
Proof.
  intros Ht Hl Hlt. unfold_ops. rewrite Ht. simpl. rewrite Hl.
  rewrite Z.gtb_ltb. destruct (Z.ltb_spec (expires_at s) now); [| lia].
  simpl. rewrite Hl. reflexivity.
Qed.

(** The four ways a call of [validate_session] can go. *)
Lemma validate_session_cases now token g :
  (token = ""%string /\ validate_session now token g = (Ok None, g))
  \/ (truthy token = true /\ _SESSION_STORE g !! token = None
      /\ validate_session now token g = (Ok None, logged (StoreGet token) g))
  \/ (exists s, truthy token = true /\ _SESSION_STORE g !! token = Some s /\ now <= expires_at s
      /\ validate_session now token g = (Ok (Some (username s)), logged (StoreGet token) g))
  \/ (exists s, truthy token = true /\ _SESSION_STORE g !! token = Some s /\ expires_at s < now
      /\ validate_session now token g
         = (Ok None, logged (StoreDel token)
                       (with_store (delete token (_SESSION_STORE g)) (logged (StoreGet token) g)))).
Proof.
  destruct token as [| c token']; [left; split; reflexivity | right].
  set (token := String c token').
  assert (Ht : truthy token = true) by reflexivity.
  destruct (_SESSION_STORE g !! token) as [s |] eqn:Hl.
  - right. destruct (Z_le_gt_dec now (expires_at s)) as [Hle | Hgt].
    + left. exists s. split; [exact Ht |]. split; [reflexivity |]. split; [exact Hle |].
      apply (validate_session_live now token s); assumption.
    + right. exists s. split; [exact Ht |]. split; [reflexivity |]. split; [lia |].
      apply (validate_session_expired now token s); [exact Ht | exact Hl | lia].
  - left. split; [exact Ht |]. split; [reflexivity |].
    apply validate_session_missing; assumption.
Qed.

Lemma create_session_ok rnd now u g :
  expiry_representable g now ->
  create_session rnd now u g
  = (Ok (token_of rnd),
     logged (StoreSet (token_of rnd))
       (with_store (<[token_of rnd := Session u now (expiry g now)]> (_SESSION_STORE g)) g)).
Proof.
  intros [[Hd1 Hd2] [He1 He2]]. unfold_ops. unfold expiry. simpl.
  destruct (Z.leb_spec (-999999999 * US_PER_DAY) (SESSION_DURATION_HOURS g * US_PER_HOUR)); [| lia].
  destruct (Z.ltb_spec (SESSION_DURATION_HOURS g * US_PER_HOUR) (1000000000 * US_PER_DAY)); [| lia].
  simpl.
  destruct (Z.leb_spec 0 (now + SESSION_DURATION_HOURS g * US_PER_HOUR)); [| lia].
  destruct (Z.leb_spec (now + SESSION_DURATION_HOURS g * US_PER_HOUR) DATETIME_MAX); [| lia].
  reflexivity.
Qed.

(** Whether it returns or raises, [create_session] writes at most the key
    it drew. *)
Lemma create_session_other rnd now u g token :
  token_of rnd <> token ->
  _SESSION_STORE (after (create_session rnd now u) g) !! token = _SESSION_STORE g !! token.
Proof.
  intros Hne. unfold_ops. simpl.
  destruct (_ && _); simpl; [| reflexivity].
  destruct (_ && _); simpl; [| reflexivity].
  apply lookup_insert_ne. exact Hne.
Qed.

Lemma create_session_keys rnd now u g token s :
  _SESSION_STORE (after (create_session rnd now u) g) !! token = Some s ->
  token = token_of rnd \/ _SESSION_STORE g !! token = Some s.
Proof.
  destruct (decide (token_of rnd = token)) as [<- | Hne]; [auto |].
  rewrite create_session_other by exact Hne. auto.
Qed.

Lemma validate_session_other now tok g token :
  tok <> token ->
  _SESSION_STORE (after (validate_session now tok) g) !! token = _SESSION_STORE g !! token.
Proof.
  intros Hne. unfold_ops.
  destruct (truthy tok); simpl; [| reflexivity].
  destruct (_SESSION_STORE g !! tok) as [s |] eqn:Hl; simpl; [| reflexivity].
  destruct (now >? expires_at s); simpl; [| reflexivity].
  rewrite Hl. simpl. apply lookup_delete_ne. exact Hne.
Qed.

(** [validate_session] never adds or changes an entry. *)
Lemma validate_session_keys now tok g token s :
  _SESSION_STORE (after (validate_session now tok) g) !! token = Some s ->
  _SESSION_STORE g !! token = Some s.
Proof.
  unfold_ops.
  destruct (truthy tok); simpl; [| auto].
  destruct (_SESSION_STORE g !! tok) as [s' |] eqn:Hl; simpl; [| auto].
  destruct (now >? expires_at s'); simpl; [| auto].
  rewrite Hl. simpl. intros H. apply lookup_delete_Some in H. tauto.
Qed.

Lemma destroy_session_eq token g :
  destroy_session token g
  = (Ok tt, logged (StorePop token) (with_store (delete token (_SESSION_STORE g)) g)).
Proof. reflexivity. Qed.

Lemma verify_user_eq u p bytes g :
  utf8_of p = Some bytes ->
  verify_user u p g
  = (Ok (match _USERS g !! u with
         | Some h => String.eqb h (Sha256.sha256_hexdigest bytes)
         | None => false
         end),
     logged (UsersGet u) g).
Proof. intros E. unfold_ops. rewrite E. destruct (_USERS g !! u); reflexivity. Qed.

(** A password without UTF-8 encoding: [encode()] raises before the
    credential table is looked at. *)
Lemma verify_user_raises u p g :
  utf8_of p = None -> verify_user u p g = (Raise UnicodeEncodeError, g).
Proof. intros E. unfold_ops. rewrite E. reflexivity. Qed.

Lemma verify_user_text u p g :
  verify_user u (Utf8 p) g
  = (Ok (match _USERS g !! u with
         | Some h => String.eqb h (Sha256.sha256_hexdigest p)
         | None => false
         end),
     logged (UsersGet u) g).
Proof. apply verify_user_eq. reflexivity. Qed.

Ltac verify_cases u p g :=
  let b := fresh "bytes" in
  let E := fresh "Hutf8" in
  destruct (utf8_of p) as [b |] eqn:E;
  [rewrite (verify_user_eq u p b g E) | rewrite (verify_user_raises u p g E)].

(** A live session survives its own validation. *)
Lemma validate_session_kept now token s g :
  _SESSION_STORE g !! token = Some s -> now <= expires_at s ->
  _SESSION_STORE (after (validate_session now token) g) !! token = Some s.
Proof.
  intros Hl Hle. unfold after.
  destruct (validate_session_cases now token g)
    as [[_ E] | [(_ & Hl' & E) | [(s' & _ & Hl' & _ & E) | (s' & _ & Hl' & Hs' & E)]]];
    rewrite E; cbn [snd]; try exact Hl.
  rewrite Hl in Hl'. injection Hl' as <-. lia.
Qed.

(** The entry under [token] after a call that [leaves] it. *)
Lemma exec_leaves token s c g :
  _SESSION_STORE g !! token = Some s -> leaves token (expires_at s) c ->
  _SESSION_STORE (exec c g) !! token = Some s.
Proof.
  intros Hl Hc. destruct c as [u p | rnd now u | now tok | tok]; cbn [exec leaves] in *.
  - unfold after. verify_cases u p g; exact Hl.
  - rewrite create_session_other by exact Hc. exact Hl.
  - destruct (decide (tok = token)) as [-> | Hne].
    + apply validate_session_kept; auto.
    + rewrite validate_session_other by exact Hne. exact Hl.
  - unfold after. rewrite destroy_session_eq. simpl.
    rewrite lookup_delete_ne by exact Hc. exact Hl.
Qed.

Lemma run_leaves token s cs : forall g,
  _SESSION_STORE g !! token = Some s -> Forall (leaves token (expires_at s)) cs ->
  _SESSION_STORE (run cs g) !! token = Some s.
Proof.
  induction cs as [| c cs IH]; intros g Hl Hcs; simpl; [exact Hl |].
  inversion Hcs as [| ? ? Hc Hcs']; subst.
  apply IH; [| exact Hcs'].
  apply exec_leaves; assumption.
Qed.

Lemma creates_other_leaves token expires c : creates_other token c -> leaves token expires c.
Proof. destruct c; simpl; tauto. Qed.

(** Every key of the session store of a running module is a token drawn by
    [create_session], hence a non-empty string. *)
Lemma exec_keys c g :
  (forall token s, _SESSION_STORE g !! token = Some s -> truthy token = true) ->
  forall token s, _SESSION_STORE (exec c g) !! token = Some s -> truthy token = true.
Proof.
  intros Hg token s. destruct c as [u p | rnd now u | now tok | tok]; cbn [exec].
  - unfold after. verify_cases u p g; apply Hg.
  - intros H. apply create_session_keys in H as [-> | H]; [apply token_truthy | eauto].
  - intros H. apply validate_session_keys in H. eauto.
  - unfold after. rewrite destroy_session_eq. simpl.
    intros H. apply lookup_delete_Some in H as [_ H]. eauto.
Qed.

Lemma reachable_keys g :
  reachable g ->
  forall token s, _SESSION_STORE g !! token = Some s -> truthy token = true.
Proof.
  induction 1 as [hours users | c g Hg IH].
  - intros token s. simpl. rewrite lookup_empty. discriminate.
  - apply exec_keys. exact IH.
Qed.

Lemma reachable_run cs : forall g, reachable g -> reachable (run cs g).
Proof.
  induction cs as [| c cs IH]; intros g Hg; simpl; [exact Hg |].
  apply IH. constructor. exact Hg.
Qed.

(** ** The credential check *)

(** C6, as stated, fails: on a password that holds a lone surrogate,
    here the one code point U+DC80, [encode()] raises before the lookup,
    so that [verify_user] does not return false for the unknown username
    ["bob"]: it raises [UnicodeEncodeError]. *)
Lemma verify_user_raises_on_lone_surrogate :
  _USERS shipped !! "bob"%string = None
  /\ returned (verify_user "bob" (Codepoints [0xDC80])) shipped <> Ok false
  /\ returned (verify_user "bob" (Codepoints [0xDC80])) shipped = Raise UnicodeEncodeError.
Proof. split; [| split]; vm_compute; (reflexivity || discriminate). Qed.

(** C6, amended: [verify_user u p] is deterministic, its outcome depending
    on nothing but [u], [p] and the credential table, and it leaves both
    dictionaries and the configuration as they were. For every password
    that has a UTF-8 encoding it does not raise; it returns false when [u]
    is not a key of the credential table and when the hash of the encoded
    password differs from the stored hash, and true exactly when [u] is a
    key and the stored hash is that hash. *)
Theorem verify_user_correct (g : globals) (u : string) (p : pystr) :
  (forall g', _USERS g' = _USERS g ->
     returned (verify_user u p) g' = returned (verify_user u p) g)
  /\ (_USERS (after (verify_user u p) g) = _USERS g
      /\ _SESSION_STORE (after (verify_user u p) g) = _SESSION_STORE g
      /\ SESSION_DURATION_HOURS (after (verify_user u p) g) = SESSION_DURATION_HOURS g)
  /\ (forall bytes, utf8_of p = Some bytes ->
        (exists b, returned (verify_user u p) g = Ok b)
        /\ (_USERS g !! u = None -> returned (verify_user u p) g = Ok false)
        /\ (forall stored, _USERS g !! u = Some stored ->
              stored <> Sha256.sha256_hexdigest bytes ->
              returned (verify_user u p) g = Ok false)
        /\ (returned (verify_user u p) g = Ok true
            <-> _USERS g !! u = Some (Sha256.sha256_hexdigest bytes))).
Proof.
  split; [| split].
  - intros g' Hg'. unfold returned.
    destruct (utf8_of p) as [bytes |] eqn:E.
    + rewrite !(verify_user_eq u p bytes) by exact E. cbn [fst]. rewrite Hg'. reflexivity.
    + rewrite !verify_user_raises by exact E. reflexivity.
  - unfold after. verify_cases u p g; auto.
  - intros bytes E. unfold returned. rewrite (verify_user_eq u p bytes g E). cbn [fst].
    split; [eauto |].
    split; [intros ->; reflexivity |].
    split.
    { intros stored -> Hne. f_equal. apply String.eqb_neq. exact Hne. }
    destruct (_USERS g !! u) as [stored |]; [| split; discriminate].
    split.
    + intros [= H]. apply String.eqb_eq in H. congruence.
    + intros [= ->]. f_equal. apply String.eqb_refl.
Qed.

Lemma verify_user_correct_witness :
  returned (verify_user "bob" (Utf8 "wonderland")) shipped = Ok false
  /\ returned (verify_user "test1" (Codepoints [119; 114; 111; 110; 103])) shipped = Ok false
  /\ returned (verify_user "test1" (Utf8 "test1")) (logged (UsersGet "x") shipped) = Ok true.
Proof.
  split; [| split].
  - destruct (verify_user_correct shipped "bob" (Utf8 "wonderland")) as (_ & _ & Henc).
    destruct (Henc "wonderland"%string eq_refl) as (_ & Hmiss & _).
    apply Hmiss. vm_compute. reflexivity.
  - destruct (verify_user_correct shipped "test1" (Codepoints [119; 114; 111; 110; 103]))
      as (_ & _ & Henc).
    destruct (Henc "wrong"%string eq_refl) as (_ & _ & Hdiff & _).
    apply (Hdiff (Sha256.sha256_hexdigest "test1")).
    + vm_compute. reflexivity.
    + vm_compute. discriminate.
  - destruct (verify_user_correct shipped "test1" (Utf8 "test1")) as (Hdet & _ & Henc).
    rewrite (Hdet (logged (UsersGet "x") shipped)) by reflexivity.
    destruct (Henc "test1"%string eq_refl) as (_ & _ & _ & Hiff).
    apply Hiff. vm_compute. reflexivity.
Defined.

(** ** Validation *)

(** C2: for a session [s] stored under [token] in a running module,
    [validate_session] at clock reading [now] returns the owner when
    [created_at s <= now <= expires_at s] and nothing when
    [now > expires_at s]. *)
Theorem validate_session_expiry (g : globals) (token : string) (s : session) (now : Z) :
  reachable g ->
  _SESSION_STORE g !! token = Some s ->
  (created_at s <= now <= expires_at s ->
     returned (validate_session now token) g = Ok (Some (username s)))
  /\ (now > expires_at s -> returned (validate_session now token) g = Ok None).
Proof.
  intros Hg Hl. pose proof (reachable_keys g Hg token s Hl) as Ht.
  unfold returned. split.
  - intros [_ Hle]. rewrite (validate_session_live now token s) by assumption. reflexivity.
  - intros Hgt. rewrite (validate_session_expired now token s) by (assumption || lia). reflexivity.
Qed.

Lemma validate_session_expiry_witness :
  returned (validate_session 5 (token_of 0)) (exec (Create 0 0 "alice") shipped)
  = Ok (Some "alice"%string)
  /\ returned (validate_session 86400000001 (token_of 0)) (exec (Create 0 0 "alice") shipped)
     = Ok None.
Proof.
  assert (Hr : reachable (exec (Create 0 0 "alice") shipped)) by (repeat constructor).
  assert (Hl : _SESSION_STORE (exec (Create 0 0 "alice") shipped) !! token_of 0
               = Some (Session "alice" 0 86400000000)) by (vm_compute; reflexivity).
  split.
  - destruct (validate_session_expiry _ _ _ 5 Hr Hl) as [Hlive _]. apply Hlive. simpl. lia.
  - destruct (validate_session_expiry _ _ _ 86400000001 Hr Hl) as [_ Hdead].
    apply Hdead. simpl. lia.
Defined.

(** C4: on the empty token [validate_session] returns nothing and leaves
    the globals, access log included, untouched: no lookup, no mutation. On
    a non-empty token that is not a key of the session store it returns
    nothing without raising, the store is unchanged, and its only access
    is the one lookup. *)
Theorem validate_session_absent (g : globals) (now : Z) (token : string) :
  (token = ""%string -> validate_session now token g = (Ok None, g))
  /\ (token <> ""%string -> _SESSION_STORE g !! token = None ->
      returned (validate_session now token) g = Ok None
      /\ _SESSION_STORE (after (validate_session now token) g) = _SESSION_STORE g
      /\ _USERS (after (validate_session now token) g) = _USERS g
      /\ accesses (after (validate_session now token) g) = accesses g ++ [StoreGet token]).
Proof.
  split.
  - intros ->. apply validate_session_empty.
  - intros Hne Hl. unfold returned, after.
    rewrite validate_session_missing; [auto | | exact Hl].
    destruct token; [contradiction | reflexivity].
Qed.

Lemma validate_session_absent_witness :
  validate_session 7 "" (exec (Create 0 0 "alice") shipped)
  = (Ok None, exec (Create 0 0 "alice") shipped)
  /\ returned (validate_session 7 "not-a-real-token") (exec (Create 0 0 "alice") shipped)
     = Ok None.
Proof.
  split.
  - destruct (validate_session_absent (exec (Create 0 0 "alice") shipped) 7 "") as [Hempty _].
    apply Hempty. reflexivity.
  - destruct (validate_session_absent (exec (Create 0 0 "alice") shipped) 7 "not-a-real-token")
      as [_ Hmiss].
    apply Hmiss.
    + discriminate.
    + vm_compute. reflexivity.
Defined.

(** ** Logout *)

(** C9: [destroy_session token] never raises and removes the entry under
    [token] and no other; when [token] is not a key the store is left as
    it was; and a second call returns as well and leaves the store as the
    first call left it. *)
Theorem destroy_session_idempotent (g : globals) (token : string) :
  returned (destroy_session token) g = Ok tt
  /\ _SESSION_STORE (after (destroy_session token) g) = delete token (_SESSION_STORE g)
  /\ (_SESSION_STORE g !! token = None ->
        _SESSION_STORE (after (destroy_session token) g) = _SESSION_STORE g)
  /\ returned (destroy_session token) (after (destroy_session token) g) = Ok tt
  /\ _SESSION_STORE (after (destroy_session token) (after (destroy_session token) g))
     = _SESSION_STORE (after (destroy_session token) g).
Proof.
  unfold returned, after. rewrite !destroy_session_eq. cbn [fst snd].
  split; [reflexivity |].
  split; [reflexivity |].
  split; [intros Hl; apply delete_id; exact Hl |].
  split; [reflexivity |].
  apply delete_id. apply lookup_delete_eq.
Qed.

Lemma destroy_session_idempotent_witness :
  _SESSION_STORE (after (destroy_session "not-a-real-token") (exec (Create 0 0 "alice") shipped))
  = _SESSION_STORE (exec (Create 0 0 "alice") shipped).
Proof.
  destruct (destroy_session_idempotent (exec (Create 0 0 "alice") shipped) "not-a-real-token")
    as (_ & _ & Hnoop & _).
  apply Hnoop. vm_compute. reflexivity.
Defined.

(** C8: [validate_session] never raises; calling it twice yields the
    result and the final store of calling it once, both at one clock
    reading and, more generally, when the clock has moved on between the
    two calls (then they are those of the single call at the later
    reading); and all it ever does to the globals is to delete the entry
    of the looked-up token, and only when that entry has expired. *)
Theorem validate_session_twice (g : globals) (token : string) :
  (forall now, exists r, returned (validate_session now token) g = Ok r)
  /\ (forall now,
        returned (validate_session now token) (after (validate_session now token) g)
        = returned (validate_session now token) g
        /\ _SESSION_STORE (after (validate_session now token) (after (validate_session now token) g))
           = _SESSION_STORE (after (validate_session now token) g))
  /\ (forall t1 t2, t1 <= t2 ->
        returned (validate_session t2 token) (after (validate_session t1 token) g)
        = returned (validate_session t2 token) g
        /\ _SESSION_STORE (after (validate_session t2 token) (after (validate_session t1 token) g))
           = _SESSION_STORE (after (validate_session t2 token) g))
  /\ (forall now,
        (_SESSION_STORE (after (validate_session now token) g) = _SESSION_STORE g
         \/ exists s, _SESSION_STORE g !! token = Some s /\ expires_at s < now
              /\ _SESSION_STORE (after (validate_session now token) g)
                 = delete token (_SESSION_STORE g))
        /\ _USERS (after (validate_session now token) g) = _USERS g
        /\ SESSION_DURATION_HOURS (after (validate_session now token) g)
           = SESSION_DURATION_HOURS g).
Proof.
  assert (Hmono : forall t1 t2, t1 <= t2 ->
        returned (validate_session t2 token) (after (validate_session t1 token) g)
        = returned (validate_session t2 token) g
        /\ _SESSION_STORE (after (validate_session t2 token) (after (validate_session t1 token) g))
           = _SESSION_STORE (after (validate_session t2 token) g)).
  { intros t1 t2 Hle. unfold returned, after.
    destruct (validate_session_cases t1 token g)
      as [[-> E1] | [(Ht & Hl & E1) | [(s & Ht & Hl & Hs & E1) | (s & Ht & Hl & Hs & E1)]]];
      rewrite E1; cbn [snd].
    - auto.
    - rewrite !validate_session_missing by assumption. auto.
    - destruct (Z_le_gt_dec t2 (expires_at s)) as [Hle2 | Hgt2].
      + rewrite !(validate_session_live t2 token s) by assumption. auto.
      + rewrite !(validate_session_expired t2 token s) by (assumption || lia). auto.
    - rewrite (validate_session_expired t2 token s g) by (assumption || lia).
      rewrite validate_session_missing; [auto | exact Ht |].
      cbn. apply lookup_delete_eq. }
  split; [| split; [| split]].
  - intros now. unfold returned.
    destruct (validate_session_cases now token g)
      as [[-> E] | [(Ht & Hl & E) | [(s & Ht & Hl & Hs & E) | (s & Ht & Hl & Hs & E)]]];
      rewrite E; eauto.
  - intros now. apply Hmono. lia.
  - exact Hmono.
  - intros now. unfold after.
    destruct (validate_session_cases now token g)
      as [[-> E] | [(Ht & Hl & E) | [(s & Ht & Hl & Hs & E) | (s & Ht & Hl & Hs & E)]]];
      rewrite E; cbn; eauto 10.
Qed.

Lemma validate_session_twice_witness :
  returned (validate_session 86400000001 (token_of 0))
    (after (validate_session 5 (token_of 0)) (exec (Create 0 0 "alice") shipped))
  = returned (validate_session 86400000001 (token_of 0)) (exec (Create 0 0 "alice") shipped).
Proof.
  destruct (validate_session_twice (exec (Create 0 0 "alice") shipped) (token_of 0))
    as (_ & _ & Hmono & _).
  apply (Hmono 5 86400000001). lia.
Defined.

(** The session [create_session] stores, once the expiry is
    representable. *)
Lemma create_session_stored rnd created u g :
  expiry_representable g created ->
  _SESSION_STORE (after (create_session rnd created u) g) !! token_of rnd
  = Some (Session u created (expiry g created)).
Proof.
  intros Hrep. unfold after. rewrite create_session_ok by exact Hrep.
  cbn. apply lookup_insert_eq.
Qed.

Lemma zero_duration_representable g created :
  SESSION_DURATION_HOURS g = 0 -> 0 <= created <= DATETIME_MAX ->
  expiry_representable g created /\ expiry g created = created.
Proof.
  intros H0 Hc. unfold expiry_representable, expiry. rewrite H0.
  unfold US_PER_DAY, US_PER_HOUR. lia.
Qed.

(** A session created with duration 0 at clock reading 1000 and validated
    at that same reading: the comparison [now > expires_at] is strict, so
    the session is still valid and stays in the store. *)
Example zero_duration_same_reading :
  returned (validate_session 1000 (token_of 0))
    (after (create_session 0 1000 "alice") (boot 0 ∅))
  = Ok (Some "alice"%string)
  /\ _SESSION_STORE (after (validate_session 1000 (token_of 0))
                       (after (create_session 0 1000 "alice") (boot 0 ∅))) !! token_of 0
     = Some (Session "alice" 1000 1000).
Proof. split; vm_compute; reflexivity. Qed.

(** C3, as stated, fails: a session created with duration 0 is not expired
    at the clock reading of its creation, and a [validate_session] at that
    reading neither returns nothing nor removes the entry. *)
Lemma zero_duration_not_immediately_expired :
  returned (validate_session 1000 (token_of 0))
    (after (create_session 0 1000 "alice") (boot 0 ∅))
  <> Ok None
  /\ _SESSION_STORE (after (validate_session 1000 (token_of 0))
                       (after (create_session 0 1000 "alice") (boot 0 ∅))) !! token_of 0
     <> None.
Proof. split; vm_compute; discriminate. Qed.

(** C3, amended: [validate_session] on a token whose stored session has
    [expires_at] before the clock reading deletes that entry and returns
    nothing; in particular a session created with duration 0 has
    [expires_at = created_at], so that every [validate_session] at a clock
    reading later than its creation returns nothing and removes the
    entry. *)
Theorem validate_session_reaps (g : globals) :
  (forall token s now,
     reachable g -> _SESSION_STORE g !! token = Some s -> expires_at s < now ->
     returned (validate_session now token) g = Ok None
     /\ _SESSION_STORE (after (validate_session now token) g) = delete token (_SESSION_STORE g)
     /\ _SESSION_STORE (after (validate_session now token) g) !! token = None)
  /\ (forall rnd created u now,
        SESSION_DURATION_HOURS g = 0 -> 0 <= created <= DATETIME_MAX -> created < now ->
        returned (create_session rnd created u) g = Ok (token_of rnd)
        /\ _SESSION_STORE (after (create_session rnd created u) g) !! token_of rnd
           = Some (Session u created created)
        /\ returned (validate_session now (token_of rnd)) (after (create_session rnd created u) g)
           = Ok None
        /\ _SESSION_STORE (after (validate_session now (token_of rnd))
                             (after (create_session rnd created u) g)) !! token_of rnd
           = None).
Proof.
  split.
  - intros token s now Hg Hl Hlt.
    pose proof (reachable_keys g Hg token s Hl) as Ht.
    unfold returned, after. rewrite (validate_session_expired now token s) by assumption.
    cbn. split; [reflexivity |]. split; [reflexivity |]. apply lookup_delete_eq.
  - intros rnd created u now H0 Hc Hlt.
    destruct (zero_duration_representable g created H0 Hc) as [Hrep Hexp].
    pose proof (create_session_stored rnd created u g Hrep) as Hl. rewrite Hexp in Hl.
    split; [unfold returned; rewrite create_session_ok by exact Hrep; reflexivity |].
    split; [exact Hl |].
    unfold returned, after in *.
    rewrite (validate_session_expired now (token_of rnd) (Session u created created));
      [| apply token_truthy | exact Hl | exact Hlt].
    cbn. split; [reflexivity |]. apply lookup_delete_eq.
Qed.

Lemma validate_session_reaps_witness :
  returned (validate_session 86400000001 (token_of 0)) (exec (Create 0 0 "alice") shipped)
  = Ok None
  /\ returned (validate_session 1001 (token_of 0))
       (after (create_session 0 1000 "alice") (boot 0 ∅))
     = Ok None.
Proof.
  split.
  - destruct (validate_session_reaps (exec (Create 0 0 "alice") shipped)) as [Hreap _].
    apply (Hreap (token_of 0) (Session "alice" 0 86400000000) 86400000001).
    + repeat constructor.
    + vm_compute. reflexivity.
    + simpl. lia.
  - destruct (validate_session_reaps (boot 0 ∅)) as [_ Hzero].
    apply (Hzero 0 1000 "alice"%string 1001).
    + reflexivity.
    + unfold DATETIME_MAX, US_PER_DAY. lia.
    + lia.
Defined.

(** ** Creation *)

(** Two [create_session] calls that draw the same random bits: the second
    returns the token of the first and replaces its session. *)
Example collision_replaces_session :
  returned (create_session 0 1 "bob") (exec (Create 0 0 "alice") shipped) = Ok (token_of 0)
  /\ _SESSION_STORE (after (create_session 0 1 "bob") (exec (Create 0 0 "alice") shipped))
       !! token_of 0
     = Some (Session "bob" 1 86400000001).
Proof. split; vm_compute; reflexivity. Qed.

(** C1, as stated, fails: when the token drawn is already a key of the
    session store, [create_session] returns it all the same, and the
    session that was stored under it is no longer there with its owner. *)
Lemma create_session_collision_clobbers :
  _SESSION_STORE (exec (Create 0 0 "alice") shipped) !! token_of 0
  = Some (Session "alice" 0 86400000000)
  /\ returned (create_session 0 1 "bob") (exec (Create 0 0 "alice") shipped) = Ok (token_of 0)
  /\ username <$> (_SESSION_STORE (after (create_session 0 1 "bob")
                                      (exec (Create 0 0 "alice") shipped)) !! token_of 0)
     <> Some "alice"%string.
Proof. split; [| split]; vm_compute; (reflexivity || discriminate). Qed.

(** C1, amended: [create_session] makes no collision check; it stores the
    new session under the token it drew, whatever the store holds there,
    and returns that token. A session stored under any other token is left
    as it was, so that after any sequence of [create_session] calls none of
    which draws the token of a session, that session is still in the store
    with its original owner. *)
Theorem create_session_no_collision_check (g : globals) (rnd now : Z) (u : string) :
  (expiry_representable g now ->
     returned (create_session rnd now u) g = Ok (token_of rnd)
     /\ _SESSION_STORE (after (create_session rnd now u) g)
        = <[token_of rnd := Session u now (expiry g now)]> (_SESSION_STORE g))
  /\ (forall token, token_of rnd <> token ->
        _SESSION_STORE (after (create_session rnd now u) g) !! token = _SESSION_STORE g !! token)
  /\ (forall token s cs,
        _SESSION_STORE g !! token = Some s -> Forall (creates_other token) cs ->
        _SESSION_STORE (run cs g) !! token = Some s).
Proof.
  split; [| split].
  - intros Hrep. unfold returned, after. rewrite create_session_ok by exact Hrep.
    split; reflexivity.
  - intros token Hne. apply create_session_other. exact Hne.
  - intros token s cs Hl Hcs.
    apply run_leaves; [exact Hl |].
    eapply Forall_impl; [exact Hcs |]. intros c. apply creates_other_leaves.
Qed.

Lemma create_session_no_collision_check_witness :
  returned (create_session 1 7 "bob") (exec (Create 0 0 "alice") shipped) = Ok (token_of 1)
  /\ _SESSION_STORE (run [Create 1 7 "bob"; Create 2 8 "carol"]
                       (exec (Create 0 0 "alice") shipped)) !! token_of 0
     = Some (Session "alice" 0 86400000000).
Proof.
  destruct (create_session_no_collision_check (exec (Create 0 0 "alice") shipped) 1 7 "bob")
    as (Hins & _ & Hseq).
  split.
  - apply Hins. unfold expiry_representable. vm_compute. intuition discriminate.
  - apply Hseq.
    + vm_compute. reflexivity.
    + repeat constructor; vm_compute; discriminate.
Defined.

(** C10: [create_session] consults neither the credential table nor any
    record of a login: for every string [u], the empty one and names
    without credentials included, it stores a session owned by [u], its
    one access to the dictionaries being that store, and returns the token,
    which [validate_session] maps back to [u] at every clock reading up to
    the expiry. *)
Theorem create_session_unchecked (g : globals) (rnd created : Z) (u : string) :
  expiry_representable g created ->
  returned (create_session rnd created u) g = Ok (token_of rnd)
  /\ _SESSION_STORE (after (create_session rnd created u) g) !! token_of rnd
     = Some (Session u created (expiry g created))
  /\ accesses (after (create_session rnd created u) g) = accesses g ++ [StoreSet (token_of rnd)]
  /\ (forall now, now <= expiry g created ->
        returned (validate_session now (token_of rnd)) (after (create_session rnd created u) g)
        = Ok (Some u)).
Proof.
  intros Hrep. pose proof (create_session_stored rnd created u g Hrep) as Hl.
  split; [unfold returned; rewrite create_session_ok by exact Hrep; reflexivity |].
  split; [exact Hl |].
  split; [unfold after; rewrite create_session_ok by exact Hrep; reflexivity |].
  intros now Hle. unfold returned.
  rewrite (validate_session_live now (token_of rnd) (Session u created (expiry g created)));
    [reflexivity | apply token_truthy | exact Hl | exact Hle].
Qed.

Lemma create_session_unchecked_witness :
  _USERS shipped !! ""%string = None
  /\ returned (create_session 0 0 "") shipped = Ok (token_of 0)
  /\ returned (validate_session 86400000000 (token_of 0)) (after (create_session 0 0 "") shipped)
     = Ok (Some ""%string).
Proof.
  assert (Hrep : expiry_representable shipped 0)
    by (unfold expiry_representable; vm_compute; intuition discriminate).
  destruct (create_session_unchecked shipped 0 0 "" Hrep) as (Hret & _ & _ & Hval).
  split; [vm_compute; reflexivity |].
  split; [exact Hret |].
  apply Hval. vm_compute. discriminate.
Defined.

(** ** Round trip *)

(** C5: after [token = create_session(u)], [validate_session(token)]
    returns [u] at every clock reading up to the expiry; after a
    [destroy_session(token)], at once or later, it returns nothing; and a
    request that presents the cookie written with the token validates to
    [u] for as long as the session has neither been validated past its
    expiry nor destroyed, whatever other calls were served meanwhile that
    left the entry of the token alone. *)
Theorem session_round_trip (g : globals) (rnd created : Z) (u : string) :
  expiry_representable g created ->
  returned (create_session rnd created u) g = Ok (token_of rnd)
  /\ (forall now, now <= expiry g created ->
        returned (validate_session now (token_of rnd)) (after (create_session rnd created u) g)
        = Ok (Some u))
  /\ (forall cs now,
        returned (validate_session now (token_of rnd))
          (after (destroy_session (token_of rnd)) (run cs (after (create_session rnd created u) g)))
        = Ok None)
  /\ (forall jar cs now,
        Forall (leaves (token_of rnd) (expiry g created)) cs -> now <= expiry g created ->
        request_cookie (cookie_set COOKIE_NAME (token_of rnd) jar) = Some (token_of rnd)
        /\ returned (validate_session now (token_of rnd))
             (run cs (after (create_session rnd created u) g))
           = Ok (Some u)
        /\ (truthy u = true ->
            returned (auth_gate now (cookie_set COOKIE_NAME (token_of rnd) jar))
              (run cs (after (create_session rnd created u) g))
            = Ok (Some (u, token_of rnd)))).
Proof.
  intros Hrep. pose proof (create_session_stored rnd created u g Hrep) as Hl.
  pose proof (token_truthy rnd) as Ht.
  assert (Hlive : forall cs now,
            Forall (leaves (token_of rnd) (expiry g created)) cs -> now <= expiry g created ->
            validate_session now (token_of rnd) (run cs (after (create_session rnd created u) g))
            = (Ok (Some u),
               logged (StoreGet (token_of rnd)) (run cs (after (create_session rnd created u) g)))).
  { intros cs now Hcs Hle.
    apply (validate_session_live now (token_of rnd) (Session u created (expiry g created)));
      [exact Ht | | exact Hle].
    apply run_leaves; [exact Hl | exact Hcs]. }
  split; [unfold returned; rewrite create_session_ok by exact Hrep; reflexivity |].
  split.
  { intros now Hle. pose proof (Hlive [] now (List.Forall_nil _) Hle) as H.
    unfold run in H. cbn [foldl] in H. unfold returned. rewrite H. reflexivity. }
  split.
  - intros cs now. unfold returned, after. rewrite destroy_session_eq. cbn [snd].
    rewrite validate_session_missing; [reflexivity | exact Ht |].
    cbn. apply lookup_delete_eq.
  - intros jar cs now Hcs Hle.
    assert (Hc : request_cookie (cookie_set COOKIE_NAME (token_of rnd) jar) = Some (token_of rnd))
      by apply lookup_insert_eq.
    split; [exact Hc |].
    split; [unfold returned; rewrite Hlive by assumption; reflexivity |].
    intros Hu. unfold returned, auth_gate, bind. rewrite Hc, Ht, Hlive by assumption.
    rewrite Hu. reflexivity.
Qed.

Lemma session_round_trip_witness :
  returned (validate_session 86400000000 (token_of 0))
    (run [Create 1 7 "bob"; Validate 9 (token_of 0); Destroy (token_of 1)]
       (after (create_session 0 0 "alice") shipped))
  = Ok (Some "alice"%string)
  /\ returned (auth_gate 86400000000 (cookie_set COOKIE_NAME (token_of 0) ∅))
       (run [] (after (create_session 0 0 "alice") shipped))
     = Ok (Some ("alice"%string, token_of 0)).
Proof.
  assert (Hrep : expiry_representable shipped 0)
    by (unfold expiry_representable; vm_compute; intuition discriminate).
  destruct (session_round_trip shipped 0 0 "alice" Hrep) as (_ & _ & _ & Hcookie).
  split.
  - apply (Hcookie ∅).
    + repeat constructor; vm_compute; (discriminate || (intros _; discriminate)).
    + vm_compute. discriminate.
  - apply (Hcookie ∅ [] 86400000000).
    + constructor.
    + vm_compute. discriminate.
    + reflexivity.
Defined.

(** ** Empty credentials *)

Lemma shipped_users u h :
  _USERS shipped !! u = Some h ->
  (u = "test1"%string /\ h = Sha256.sha256_hexdigest "test1")
  \/ (u = "test2"%string /\ h = Sha256.sha256_hexdigest "test2").
Proof.
  unfold shipped, boot. cbn [_USERS]. intros H.
  apply lookup_insert_Some in H as [[<- <-] | [_ H]]; [left; auto |].
  apply lookup_insert_Some in H as [[<- <-] | [_ H]]; [right; auto |].
  rewrite lookup_empty in H. discriminate.
Qed.

(** C7, as stated, fails: [verify_user] has no guard of its own. Given the
    empty username it does look it up in the credential table; and for an
    account provisioned with the hash of the empty password it returns
    true on the empty password. *)
Lemma verify_user_no_empty_guard :
  accesses (after (verify_user "" (Utf8 "x")) shipped) = [UsersGet ""]
  /\ returned (verify_user "alice" (Utf8 ""))
       (boot 24 (<["alice"%string := Sha256.sha256_hexdigest ""]> ∅))
     = Ok true.
Proof. split; vm_compute; reflexivity. Qed.

(** C7, amended: empty inputs are rejected before any credential-store
    lookup by the login form handler, which answers an empty username or
    an empty password without calling [verify_user] and without touching
    the globals. [verify_user] itself has no such guard: given a password
    that has a UTF-8 encoding, it performs the lookup also when the
    username or that password is empty, and with the shipped credential
    table it then returns false. *)
Theorem empty_credentials_rejected (g : globals) (u : string) (p : pystr) (bytes : string) :
  utf8_of p = Some bytes ->
  u = ""%string \/ bytes = ""%string ->
  (forall rnd now, login_submitted rnd now u bytes g = (Ok EnterBoth, g))
  /\ accesses (after (verify_user u p) g) = accesses g ++ [UsersGet u]
  /\ (_USERS g = _USERS shipped -> returned (verify_user u p) g = Ok false).
Proof.
  intros Hutf8 Hempty. split; [| split].
  - intros rnd now. unfold login_submitted.
    destruct Hempty as [-> | ->]; [reflexivity |].
    destruct (truthy u); reflexivity.
  - unfold after. rewrite (verify_user_eq u p bytes g Hutf8). reflexivity.
  - intros Hg. unfold returned. rewrite (verify_user_eq u p bytes g Hutf8), Hg. cbn [fst].
    destruct (_USERS shipped !! u) as [h |] eqn:Hl; [| reflexivity].
    f_equal. apply String.eqb_neq.
    apply shipped_users in Hl as [[-> ->] | [-> ->]];
      (destruct Hempty as [Hu | ->]; [discriminate Hu | vm_compute; discriminate]).
Qed.

Lemma empty_credentials_rejected_witness :
  login_submitted 0 0 "test1" "" shipped = (Ok EnterBoth, shipped)
  /\ returned (verify_user "test1" (Utf8 "")) shipped = Ok false
  /\ returned (verify_user "" (Codepoints [116; 101; 115; 116; 49])) shipped = Ok false.
Proof.
  split; [| split].
  - destruct (empty_credentials_rejected shipped "test1" (Utf8 "") "") as (Hform & _);
      [reflexivity | right; reflexivity |].
    apply Hform.
  - destruct (empty_credentials_rejected shipped "test1" (Utf8 "") "") as (_ & _ & Hfalse);
      [reflexivity | right; reflexivity |].
    apply Hfalse. reflexivity.
  - destruct (empty_credentials_rejected shipped "" (Codepoints [116; 101; 115; 116; 49])
                "test1") as (_ & _ & Hfalse);
      [reflexivity | left; reflexivity |].
    apply Hfalse. reflexivity.
Defined.

(** ** The scenarios of the specification, run on the model *)

Example encode_two_bytes : utf8_of (Codepoints [0xE9]) = Some (String (byte 0xC3) (String (byte 0xA9) "")).
Proof. reflexivity. Qed.

Example encode_three_and_four_bytes :
  utf8_of (Codepoints [0x20AC; 0x1F600])
  = Some (String (byte 0xE2) (String (byte 0x82) (String (byte 0xAC)
          (String (byte 0xF0) (String (byte 0x9F) (String (byte 0x98) (String (byte 0x80) ""))))))).
Proof. reflexivity. Qed.

Example encode_lone_surrogate : utf8_of (Codepoints [97; 0xDC80]) = None.
Proof. reflexivity. Qed.

Example sha_two_byte_text :
  Sha256.sha256_hexdigest (String (byte 0xC3) (String (byte 0xA9) ""))
  = "4a99557e4033c3539de2eb65472017cad5f9557f7a0625a09f1c3f6e2ba69c4c"%string.
Proof. vm_compute. reflexivity. Qed.

Example uuid_all_zero : token_of 0 = "00000000-0000-4000-8000-000000000000"%string.
Proof. vm_compute. reflexivity. Qed.

Example uuid_all_one : token_of (-1) = "ffffffff-ffff-4fff-bfff-ffffffffffff"%string.
Proof. vm_compute. reflexivity. Qed.

Example sha_test1 :
  Sha256.sha256_hexdigest "test1"
  = "1b4f0e9851971998e732078544c96b36c3d01cedf7caa332359d6f1d83567014"%string.
Proof. vm_compute. reflexivity. Qed.

Example sha_two_blocks :
  Sha256.sha256_hexdigest "aaaaaaaaaaaaaaaaaaaaaaaaaaaaaaaaaaaaaaaaaaaaaaaaaaaaaaaa"
  = "b35439a4ac6f0948b6d6f9e3c6af0f5f590ce20f1bde7090ef7970686ec6738a"%string.
Proof. vm_compute. reflexivity. Qed.

Example scenario_wonderland :
  let g := boot 24 (<["alice"%string := Sha256.sha256_hexdigest "wonderland"]> ∅) in
  returned (verify_user "alice" (Utf8 "wonderland")) g = Ok true
  /\ returned (verify_user "alice" (Utf8 "wrong")) g = Ok false
  /\ returned (verify_user "bob" (Utf8 "wonderland")) g = Ok false.
Proof. repeat split; vm_compute; reflexivity. Qed.

Example scenario_login_logout :
  let g1 := after (login_submitted 0 0 "test1" "test1") shipped in
  returned (login_submitted 0 0 "test1" "test1") shipped = Ok (LoggedIn (token_of 0))
  /\ returned (validate_session 1 (token_of 0)) g1 = Ok (Some "test1"%string)
  /\ returned (validate_session 2 (token_of 0)) (after (destroy_session (token_of 0)) g1) = Ok None.
Proof. repeat split; vm_compute; reflexivity. Qed.

(** * Further properties of [auth.py] *)

Import Runs.

(** ** Failure of [create_session] *)

Lemma expiry_representable_dec g now :
  {expiry_representable g now} + {~ expiry_representable g now}.
Proof.
  unfold expiry_representable.
  destruct (Z_le_dec (-999999999 * US_PER_DAY) (SESSION_DURATION_HOURS g * US_PER_HOUR));
    [| right; tauto].
  destruct (Z_lt_dec (SESSION_DURATION_HOURS g * US_PER_HOUR) (1000000000 * US_PER_DAY));
    [| right; tauto].
  destruct (Z_le_dec 0 (now + SESSION_DURATION_HOURS g * US_PER_HOUR)); [| right; tauto].
  destruct (Z_le_dec (now + SESSION_DURATION_HOURS g * US_PER_HOUR) DATETIME_MAX);
    [left; tauto | right; tauto].
Qed.

Lemma create_session_raises (g : globals) (rnd now : Z) (u : string) :
  ~ expiry_representable g now ->
  create_session rnd now u g = (Raise OverflowError, g).
Proof.
  intros Hno. unfold_ops. unfold expiry_representable in Hno. simpl.
  destruct (Z.leb_spec (-999999999 * US_PER_DAY) (SESSION_DURATION_HOURS g * US_PER_HOUR));
    [| reflexivity].
  destruct (Z.ltb_spec (SESSION_DURATION_HOURS g * US_PER_HOUR) (1000000000 * US_PER_DAY));
    [| reflexivity].
  simpl.
  destruct (Z.leb_spec 0 (now + SESSION_DURATION_HOURS g * US_PER_HOUR)); [| reflexivity].
  destruct (Z.leb_spec (now + SESSION_DURATION_HOURS g * US_PER_HOUR) DATETIME_MAX);
    [| reflexivity].
  exfalso. apply Hno. lia.
Qed.

(** [create_session] returns a token exactly when the expiry it computes
    can be represented. When it cannot, the call raises [OverflowError]
    before it touches the session store: the globals, access log included,
    are what they were. *)
Theorem create_session_overflow (g : globals) (rnd now : Z) (u : string) :
  (~ expiry_representable g now ->
     create_session rnd now u g = (Raise OverflowError, g))
  /\ (returned (create_session rnd now u) g = Ok (token_of rnd)
      <-> expiry_representable g now).
Proof.
  split; [apply create_session_raises |].
  split.
  - intros H. destruct (expiry_representable_dec g now) as [Hrep | Hno]; [exact Hrep |].
    unfold returned in H. rewrite create_session_raises in H by exact Hno. discriminate.
  - intros Hrep. unfold returned. rewrite create_session_ok by exact Hrep. reflexivity.
Qed.

Lemma create_session_overflow_witness :
  create_session 0 (DATETIME_MAX - 5) "alice" shipped = (Raise OverflowError, shipped).
Proof.
  destruct (create_session_overflow shipped 0 (DATETIME_MAX - 5) "alice") as [Hraise _].
  apply Hraise.
  unfold expiry_representable. vm_compute. intros [_ [_ H]]. apply H. reflexivity.
Defined.

(** ** What no call changes *)

Lemma exec_config c g :
  _USERS (exec c g) = _USERS g
  /\ SESSION_DURATION_HOURS (exec c g) = SESSION_DURATION_HOURS g.
Proof.
  destruct c as [u p | rnd now u | now tok | tok]; cbn [exec]; unfold after.
  - verify_cases u p g; auto.
  - destruct (expiry_representable_dec g now) as [Hrep | Hno].
    + rewrite create_session_ok by exact Hrep. auto.
    + rewrite create_session_raises by exact Hno. auto.
  - destruct (validate_session_cases now tok g)
      as [[_ E] | [(_ & _ & E) | [(s & _ & _ & _ & E) | (s & _ & _ & _ & E)]]];
      rewrite E; auto.
  - rewrite destroy_session_eq. auto.
Qed.

(** The credential table and the configured duration are read-only: no
    sequence of calls into [auth.py] changes either. *)
Theorem run_config_read_only (cs : list call) (g : globals) :
  _USERS (run cs g) = _USERS g
  /\ SESSION_DURATION_HOURS (run cs g) = SESSION_DURATION_HOURS g.
Proof.
  revert g. induction cs as [| c cs IH]; intros g; [auto |].
  cbn [run foldl]. fold (run cs (exec c g)).
  destruct (IH (exec c g)) as [Hu Hh]. destruct (exec_config c g) as [Hu' Hh'].
  split; congruence.
Qed.

(** ** Where sessions come from *)

Lemma exec_provenance c g token s :
  _SESSION_STORE (exec c g) !! token = Some s ->
  _SESSION_STORE g !! token = Some s \/ made_by (SESSION_DURATION_HOURS g) c token s.
Proof.
  destruct c as [u p | rnd now u | now tok | tok]; cbn [exec made_by]; unfold after.
  - verify_cases u p g; auto.
  - destruct (expiry_representable_dec g now) as [Hrep | Hno].
    + rewrite create_session_ok by exact Hrep. cbn. unfold expiry.
      destruct Hrep as [_ Hr].
      intros H. apply lookup_insert_Some in H as [[<- <-] | [_ H]]; auto.
    + rewrite create_session_raises by exact Hno. auto.
  - intros H. left. exact (validate_session_keys now tok g token s H).
  - rewrite destroy_session_eq. cbn. intros H. apply lookup_delete_Some in H. tauto.
Qed.

Lemma run_sessions_made (cs : list call) (g : globals) (token : string) (s : session) :
  _SESSION_STORE (run cs g) !! token = Some s ->
  _SESSION_STORE g !! token = Some s
  \/ Exists (fun c => made_by (SESSION_DURATION_HOURS g) c token s) cs.
Proof.
  revert g. induction cs as [| c cs IH]; intros g; [auto |].
  cbn [run foldl]. fold (run cs (exec c g)). intros H.
  apply IH in H as [H | H].
  - apply exec_provenance in H as [H | H]; [auto | right; constructor; exact H].
  - right. apply Exists_cons_tl.
    destruct (exec_config c g) as [_ Hh]. rewrite Hh in H. exact H.
Qed.

(** Every session in the store after a sequence of calls was there before
    or was written by one of its [create_session] calls, with the owner
    and creation time that call was given and the expiry it computed:
    verifying, validating and destroying never add or alter a session. *)
Theorem run_provenance (cs : list call) (g : globals) (token : string) (s : session) :
  _SESSION_STORE (run cs g) !! token = Some s ->
  _SESSION_STORE g !! token = Some s
  \/ Exists (fun c => made_by (SESSION_DURATION_HOURS g) c token s) cs.
Proof. apply run_sessions_made. Qed.

Lemma run_provenance_witness :
  _SESSION_STORE shipped !! token_of 1 = Some (Session "bob" 7 86400000007)
  \/ Exists (fun c => made_by (SESSION_DURATION_HOURS shipped) c (token_of 1)
                        (Session "bob" 7 86400000007))
       [Create 0 0 "alice"; Validate 3 (token_of 0); Create 1 7 "bob"; Destroy (token_of 0)].
Proof.
  apply (run_provenance _ shipped (token_of 1) (Session "bob" 7 86400000007)).
  vm_compute. reflexivity.
Defined.

(** In a module booted with duration [hours], every stored session sits
    under a non-empty key that is the string of a version-4 UUID, expires
    exactly [hours] after its creation, and has an expiry within the range
    of [datetime]. *)
Theorem booted_sessions_well_formed
    (hours : Z) (users : gmap string string) (cs : list call) (token : string) (s : session) :
  _SESSION_STORE (run cs (boot hours users)) !! token = Some s ->
  (exists rnd, token = token_of rnd)
  /\ token <> ""%string
  /\ expires_at s = created_at s + hours * US_PER_HOUR
  /\ 0 <= expires_at s <= DATETIME_MAX.
Proof.
  intros H. apply run_sessions_made in H as [H | H].
  { cbn in H. rewrite lookup_empty in H. discriminate. }
  apply List.Exists_exists in H as (c & _ & Hc).
  destruct c as [? ? | rnd now u | ? ? | ?]; cbn in Hc; try contradiction.
  destruct Hc as (-> & -> & Hr).
  split; [eauto |].
  split; [intros E; pose proof (token_truthy rnd) as Ht; rewrite E in Ht; discriminate |].
  split; [reflexivity | exact Hr].
Qed.

Lemma booted_sessions_well_formed_witness :
  expires_at (Session "bob" 7 86400000007) = created_at (Session "bob" 7 86400000007)
                                             + 24 * US_PER_HOUR.
Proof.
  apply (booted_sessions_well_formed 24 (_USERS shipped)
           [Create 0 0 "alice"; Create 1 7 "bob"] (token_of 1) (Session "bob" 7 86400000007)).
  vm_compute. reflexivity.
Defined.

(** ** Revocation *)

Lemma run_absent cs : forall g token,
  _SESSION_STORE g !! token = None -> Forall (fun c => ~ draws token c) cs ->
  _SESSION_STORE (run cs g) !! token = None.
Proof.
  induction cs as [| c cs IH]; intros g token Hl Hcs; [exact Hl |].
  cbn [run foldl]. fold (run cs (exec c g)).
  inversion Hcs as [| ? ? Hc Hcs']; subst.
  apply IH; [| exact Hcs'].
  destruct (_SESSION_STORE (exec c g) !! token) as [s |] eqn:H; [| reflexivity].
  apply exec_provenance in H as [H | H]; [congruence |].
  exfalso. apply Hc.
  destruct c as [? ? | rnd now u | ? ? | ?]; cbn in H |- *; try contradiction.
  destruct H as [-> _]. reflexivity.
Qed.

(** A token without an entry in the session store, be it never issued,
    destroyed, or reaped after its expiry, stays invalid whatever calls
    follow, at every clock reading, until a [create_session] draws that
    very token again. *)
Theorem revoked_stays_invalid (g : globals) (token : string) (cs : list call) (now : Z) :
  _SESSION_STORE g !! token = None ->
  Forall (fun c => ~ draws token c) cs ->
  returned (validate_session now token) (run cs g) = Ok None.
Proof.
  intros Hl Hcs. pose proof (run_absent cs g token Hl Hcs) as Hnone.
  unfold returned.
  destruct (validate_session_cases now token (run cs g))
    as [[_ E] | [(_ & _ & E) | [(s & _ & Hs & _ & _) | (s & _ & Hs & _ & _)]]];
    try (rewrite E; reflexivity); congruence.
Qed.

Lemma revoked_stays_invalid_witness :
  returned (validate_session 9 (token_of 0))
    (run [Create 1 7 "bob"; Validate 8 (token_of 1); Verify "test1" (Utf8 "test1")]
       (after (destroy_session (token_of 0)) (exec (Create 0 0 "alice") shipped)))
  = Ok None.
Proof.
  apply (revoked_stays_invalid
           (after (destroy_session (token_of 0)) (exec (Create 0 0 "alice") shipped))).
  - vm_compute. reflexivity.
  - repeat constructor; vm_compute; (discriminate || tauto).
Defined.

(** ** Size of the session store *)

Lemma exec_size c g :
  (size (_SESSION_STORE (exec c g))
   <= size (_SESSION_STORE g) + (if is_create c then 1 else 0))%nat.
Proof.
  assert (Hdel : forall tok, (size (delete tok (_SESSION_STORE g)) <= size (_SESSION_STORE g))%nat).
  { intros tok. rewrite map_size_delete. destruct (_SESSION_STORE g !! tok); simpl; lia. }
  destruct c as [u p | rnd now u | now tok | tok]; cbn [exec is_create]; unfold after.
  - verify_cases u p g; cbn [snd logged with_store _SESSION_STORE]; lia.
  - destruct (expiry_representable_dec g now) as [Hrep | Hno].
    + rewrite create_session_ok by exact Hrep. cbn [snd logged with_store _SESSION_STORE].
      rewrite map_size_insert.
      destruct (_SESSION_STORE g !! token_of rnd); simpl; lia.
    + rewrite create_session_raises by exact Hno. cbn [snd]. lia.
  - destruct (validate_session_cases now tok g)
      as [[_ E] | [(_ & _ & E) | [(s & _ & _ & _ & E) | (s & _ & _ & _ & E)]]];
      rewrite E; cbn [snd logged with_store _SESSION_STORE]; try lia.
    pose proof (Hdel tok). lia.
  - rewrite destroy_session_eq. cbn [snd logged with_store _SESSION_STORE].
    pose proof (Hdel tok). lia.
Qed.

(** The session store grows by at most one entry per [create_session]
    call and by none otherwise: after any sequence of calls it holds at
    most as many sessions more as the sequence has [create_session]
    calls. *)
Theorem store_growth_bound (cs : list call) (g : globals) :
  (size (_SESSION_STORE (run cs g))
   <= size (_SESSION_STORE g) + List.length (List.filter is_create cs))%nat.
Proof.
  revert g. induction cs as [| c cs IH]; intros g; [cbn; lia |].
  cbn [run foldl List.filter]. fold (run cs (exec c g)).
  pose proof (IH (exec c g)) as H1. pose proof (exec_size c g) as H2.
  destruct (is_create c); cbn [List.length]; lia.
Qed.

(** ** Shape of the tokens *)

Lemma iter_shiftr4 k x :
  Nat.iter k (fun y => Z.shiftr y 4) x = Z.shiftr x (4 * Z.of_nat k).
Proof.
  induction k as [| k IH]; [rewrite Z.shiftr_0_r; reflexivity |].
  cbn [Nat.iter nat_rect]. fold (Nat.iter k (fun y => Z.shiftr y 4) x).
  rewrite IH, Z.shiftr_shiftr by lia. f_equal. lia.
Qed.

(** The version bits: bits 76 to 79 of a UUID made by [uuid4] are 4. *)
Lemma uuid4_version rnd : Z.land (Z.shiftr (Uuid.uuid4 rnd) 76) 15 = 4.
Proof.
  unfold Uuid.uuid4.
  rewrite Z.shiftr_lor, Z.land_lor_distr_l, Z.shiftr_land, <- Z.land_assoc.
  change (Z.land (Z.shiftr (Z.lnot (Z.shiftl 0xf000 64)) 76) 15) with 0.
  rewrite Z.land_0_r. reflexivity.
Qed.

(** The variant bits: bits 62 and 63 are 1 and 0, bits 60 and 61 are
    random. *)
Lemma uuid4_variant rnd :
  exists a, 0 <= a < 4 /\ Z.land (Z.shiftr (Uuid.uuid4 rnd) 60) 15 = Z.lor a 8.
Proof.
  unfold Uuid.uuid4.
  rewrite Z.shiftr_lor, Z.land_lor_distr_l.
  change (Z.land (Z.shiftr (Z.shiftl 4 76) 60) 15) with 0. rewrite Z.lor_0_r.
  rewrite Z.shiftr_land, <- Z.land_assoc.
  change (Z.land (Z.shiftr (Z.lnot (Z.shiftl 0xf000 64)) 60) 15) with 15.
  rewrite Z.shiftr_lor, Z.land_lor_distr_l.
  change (Z.land (Z.shiftr (Z.shiftl 0x8000 48) 60) 15) with 8.
  rewrite Z.shiftr_land, <- Z.land_assoc.
  change (Z.land (Z.shiftr (Z.lnot (Z.shiftl 0xc000 48)) 60) 15) with (Z.ones 2).
  rewrite Z.land_ones by lia.
  eexists. split; [| reflexivity]. apply Z.mod_pos_bound. lia.
Qed.

(** Whatever the random bits, the token [create_session] draws is a
    string of 36 characters with hyphens at positions 8, 13, 18 and 23, the
    version digit 4 at position 14 and a variant digit 8, 9, a or b at
    position 19: the text of a version-4 UUID. *)
Theorem token_is_uuid4_text (rnd : Z) :
  String.length (token_of rnd) = 36%nat
  /\ String.get 8 (token_of rnd) = Some "-"%char
  /\ String.get 13 (token_of rnd) = Some "-"%char
  /\ String.get 18 (token_of rnd) = Some "-"%char
  /\ String.get 23 (token_of rnd) = Some "-"%char
  /\ String.get 14 (token_of rnd) = Some "4"%char
  /\ (String.get 19 (token_of rnd) = Some "8"%char
      \/ String.get 19 (token_of rnd) = Some "9"%char
      \/ String.get 19 (token_of rnd) = Some "a"%char
      \/ String.get 19 (token_of rnd) = Some "b"%char).
Proof.
  unfold token_of, Uuid.uuid_str.
  remember (Uuid.uuid4 rnd) as x eqn:Hx.
  assert (E19 : Nat.iter 19 (fun y => Z.shiftr y 4) x = Z.shiftr x 76)
    by (rewrite iter_shiftr4; reflexivity).
  assert (E15 : Nat.iter 15 (fun y => Z.shiftr y 4) x = Z.shiftr x 60)
    by (rewrite iter_shiftr4; reflexivity).
  cbv beta iota delta [Nat.iter nat_rect] in E19, E15.
  cbn -[Z.land Z.shiftr Hex.hex_char].
  rewrite E19, E15. subst x. rewrite uuid4_version.
  destruct (uuid4_variant rnd) as (a & Ha & ->).
  repeat (split; [reflexivity |]).
  assert (Hc : a = 0 \/ a = 1 \/ a = 2 \/ a = 3) by lia.
  destruct Hc as [-> | [-> | [-> | ->]]]; vm_compute; auto.
Qed.

(** * Properties of [app.py] *)

Import App.

Lemma lift_eq {X : Type} (m : M X) (w : world) r g' :
  m (auth w) = (r, g') ->
  lift m w = (match r with
              | Ok x => Returned x
              | Raise e => Raised (AuthExn e)
              end, World g' (state w) (rendered w)).
Proof. intros E. unfold lift. rewrite E. destruct r; reflexivity. Qed.

(** ** The login form *)

Lemma verify_user_returned u p g :
  returned (verify_user u (Utf8 p)) g = Ok true
  \/ returned (verify_user u (Utf8 p)) g = Ok false.
Proof.
  unfold returned. rewrite verify_user_text. cbn [fst].
  destruct (match _USERS g !! u with Some h => _ | None => _ end); auto.
Qed.

Lemma lift_verify_user u p g ss out :
  lift (verify_user u (Utf8 p)) (World g ss out)
  = (match returned (verify_user u (Utf8 p)) g with
     | Ok b => Returned b
     | Raise e => Raised (AuthExn e)
     end, World (logged (UsersGet u) g) ss out).
Proof.
  unfold returned.
  rewrite (lift_eq (verify_user u (Utf8 p)) (World g ss out) _ _ (verify_user_text u p g)).
  rewrite verify_user_text. reflexivity.
Qed.

(** The expiry of the cookie: [datetime.now(timezone.utc)] plus the
    duration. *)
Lemma cookie_expiry {X : Type} (k : Z -> A X) g ss out utcnow :
  (let+ hours := lift duration_hours in
   let+ delta := lift (timedelta_hours hours) in
   let+ expires := lift (datetime_add utcnow delta) in
   k expires) (World g ss out)
  = if decide (expiry_representable g utcnow)
    then k (expiry g utcnow) (World g ss out)
    else (Raised (AuthExn OverflowError), World g ss out).
Proof.
  unfold abind, lift, duration_hours, timedelta_hours, datetime_add, expiry_representable,
    expiry, Auth.ret, Auth.raise. cbn [auth state rendered].
  destruct (Z.leb_spec (-999999999 * US_PER_DAY) (SESSION_DURATION_HOURS g * US_PER_HOUR));
    destruct (Z.ltb_spec (SESSION_DURATION_HOURS g * US_PER_HOUR) (1000000000 * US_PER_DAY));
    cbn [andb auth state rendered];
    try (destruct (Z.leb_spec 0 (utcnow + SESSION_DURATION_HOURS g * US_PER_HOUR));
         destruct (Z.leb_spec (utcnow + SESSION_DURATION_HOURS g * US_PER_HOUR) DATETIME_MAX);
         cbn [andb auth state rendered]);
    case_decide; try reflexivity; exfalso; lia.
Qed.

Lemma show_login_form_pass rq w : form_pass rq w (_show_login_form rq w).
Proof.
  destruct w as [g ss out]. unfold _show_login_form.
  unfold abind at 1. unfold render at 1. cbn [auth state rendered].
  destruct (rq_submitted rq) as [[u p] |] eqn:Hsub;
    [| exact (pass_idle rq (World g ss out) Hsub)].
  destruct (truthy u) eqn:Hu;
    [| exact (pass_empty rq (World g ss out) u p Hsub (or_introl Hu))].
  destruct (truthy p) eqn:Hp;
    [| exact (pass_empty rq (World g ss out) u p Hsub (or_intror Hp))].
  cbn [negb orb]. unfold abind at 1. rewrite lift_verify_user.
  destruct (verify_user_returned u p g) as [Hv | Hv]; rewrite Hv.
  - destruct (expiry_representable_dec g (rq_login_now rq)) as [Hrep | Hno].
    + unfold abind at 1.
      rewrite (lift_eq (create_session (rq_rnd rq) (rq_login_now rq) u)
                 (World (logged (UsersGet u) g) ss (out ++ [LoginForm])) _ _
                 (create_session_ok (rq_rnd rq) (rq_login_now rq) u
                    (logged (UsersGet u) g) Hrep)).
      cbn [auth state rendered]. unfold abind at 1. unfold set_identity at 1.
      cbn [auth state rendered].
      rewrite cookie_expiry.
      change (logged (StoreSet (token_of (rq_rnd rq))) _) with (logged_in rq u g).
      change (expiry_representable (logged_in rq u g) (rq_login_utcnow rq))
        with (expiry_representable g (rq_login_utcnow rq)).
      case_decide as Hutc.
      * exact (pass_logged_in rq (World g ss out) u p Hsub Hu Hp Hv Hrep Hutc).
      * exact (pass_no_cookie rq (World g ss out) u p Hsub Hu Hp Hv Hrep Hutc).
    + unfold abind at 1.
      rewrite (lift_eq (create_session (rq_rnd rq) (rq_login_now rq) u)
                 (World (logged (UsersGet u) g) ss (out ++ [LoginForm])) _ _
                 (create_session_raises (logged (UsersGet u) g)
                    (rq_rnd rq) (rq_login_now rq) u Hno)).
      exact (pass_no_session rq (World g ss out) u p Hsub Hu Hp Hv Hno).
  - exact (pass_invalid rq (World g ss out) u p Hsub Hu Hp Hv).
Qed.

(** ** The cookie gate *)

Lemma auth_gate_spec
    (now : Z) (cookies : gmap string string) (g : globals) (u token : string) :
  (exists r, returned (auth_gate now cookies) g = Ok r)
  /\ (returned (auth_gate now cookies) g = Ok (Some (u, token))
      <-> request_cookie cookies = Some token
          /\ token <> ""%string /\ u <> ""%string
          /\ exists s, _SESSION_STORE g !! token = Some s
                       /\ now <= expires_at s /\ username s = u).
Proof.
  unfold returned, auth_gate.
  destruct (request_cookie cookies) as [tok |] eqn:Hc.
  2: { cbn. split; [eauto |]. split; [discriminate | intros (H & _); discriminate]. }
  destruct (truthy tok) eqn:Ht.
  2: { cbn. split; [eauto |]. split; [discriminate |].
       intros ([= ->] & Hne & _). destruct token; [contradiction | discriminate]. }
  assert (Htok : tok <> ""%string) by (intros ->; discriminate).
  unfold bind.
  destruct (validate_session_cases now tok g)
    as [[-> _] | [(_ & Hl & E) | [(s & _ & Hl & Hs & E) | (s & _ & Hl & Hs & E)]]];
    [contradiction | rewrite E; cbn [fst] ..].
  - split; [eauto |]. split; [discriminate |].
    intros ([= ->] & _ & _ & s & Hs & _). congruence.
  - destruct (truthy (username s)) eqn:Hus; cbn [fst Auth.ret]; (split; [eauto |]).
    + split.
      * intros [= <- <-]. split; [reflexivity |]. split; [exact Htok |].
        split; [intros E'; rewrite E' in Hus; discriminate | eauto].
      * intros ([= ->] & _ & _ & s' & Hs' & _ & <-). congruence.
    + split; [discriminate |].
      intros ([= ->] & _ & Hune & s' & Hs' & _ & <-).
      assert (s' = s) by congruence. subst s'.
      destruct (username s); [contradiction | discriminate].
  - split; [eauto |]. split; [discriminate |].
    intros ([= ->] & _ & _ & s' & Hs' & Hle & _).
    assert (s' = s) by congruence. subst s'. lia.
Qed.

(** The gate restores an identity from the cookies of a request exactly
    when the cookie named [auth_session] holds a non-empty token whose
    session is in the store, has not expired at the clock reading and is
    owned by a non-empty username; the identity is then that owner with
    that token. In every other case the cookie counts for nothing; the
    gate never raises. *)
Theorem auth_gate_restores_iff
    (now : Z) (cookies : gmap string string) (g : globals) (u token : string) :
  (exists r, returned (auth_gate now cookies) g = Ok r)
  /\ (returned (auth_gate now cookies) g = Ok (Some (u, token))
      <-> request_cookie cookies = Some token
          /\ token <> ""%string /\ u <> ""%string
          /\ exists s, _SESSION_STORE g !! token = Some s
                       /\ now <= expires_at s /\ username s = u).
Proof. apply auth_gate_spec. Qed.

Lemma auth_gate_restores_iff_witness :
  returned (auth_gate 5 (cookie_set COOKIE_NAME (token_of 0) ∅))
    (exec (Create 0 0 "alice") shipped)
  = Ok (Some ("alice"%string, token_of 0)).
Proof.
  destruct (auth_gate_restores_iff 5 (cookie_set COOKIE_NAME (token_of 0) ∅)
              (exec (Create 0 0 "alice") shipped) "alice" (token_of 0)) as [_ [_ Hif]].
  apply Hif.
  split; [reflexivity |]. split; [vm_compute; discriminate |]. split; [discriminate |].
  exists (Session "alice" 0 86400000000).
  split; [vm_compute; reflexivity |]. split; [simpl; lia | reflexivity].
Defined.

Lemma auth_gate_config now cookies g :
  _USERS (after (auth_gate now cookies) g) = _USERS g
  /\ SESSION_DURATION_HOURS (after (auth_gate now cookies) g) = SESSION_DURATION_HOURS g
  /\ (forall t s, _SESSION_STORE (after (auth_gate now cookies) g) !! t = Some s ->
                  _SESSION_STORE g !! t = Some s).
Proof.
  unfold after, auth_gate.
  destruct (request_cookie cookies) as [tok |]; [| cbn; auto].
  destruct (truthy tok); [| cbn; auto].
  unfold bind.
  pose proof (validate_session_keys now tok g) as Hkeys. unfold after in Hkeys.
  destruct (exec_config (Validate now tok) g) as [Hu Hh]. cbn [exec] in Hu, Hh.
  unfold after in Hu, Hh.
  destruct (validate_session now tok g) as [[[u |] | e] g']; cbn [snd] in *; auto.
  destruct (truthy u); cbn; auto.
Qed.

(** The restoring half of the gate, through [auth_gate]. *)
Lemma restore_from_cookie_eq rq g ss out :
  restore_from_cookie rq (World g ss out)
  = (Returned tt,
     World (after (auth_gate (rq_gate_now rq) (rq_cookies rq)) g) (restored rq g ss) out).
Proof.
  unfold restore_from_cookie, restored, returned, after, auth_gate.
  destruct (request_cookie (rq_cookies rq)) as [tok |]; [| reflexivity].
  destruct (truthy tok); [| reflexivity].
  unfold abind, bind, lift. cbn [auth state rendered].
  destruct (validate_session_cases (rq_gate_now rq) tok g)
    as [[_ E] | [(_ & _ & E) | [(s & _ & _ & _ & E) | (s & _ & _ & _ & E)]]];
    rewrite E; try reflexivity.
  destruct (truthy (username s)); reflexivity.
Qed.

Lemma authenticated_part_eq rq g a u t out :
  authenticated_part rq (World g (SessionState a (Some u) t) out)
  = if rq_logout rq
    then (if rq_delete_keyerror rq then Raised (CookieKeyError COOKIE_NAME) else Stopped,
          World (after (logout (session_token (SessionState a (Some u) t))) g) signed_out
            ((out ++ [Sidebar u]) ++ [CookieDelete COOKIE_NAME]))
    else (Returned tt,
          World g (SessionState a (Some u) t) ((out ++ [Sidebar u]) ++ [PageRun])).
Proof.
  unfold authenticated_part, abind, get_username, render. cbn [auth state rendered ss_username].
  destruct (rq_logout rq); [| reflexivity].
  unfold _logout, cookie_manager_delete, abind, set_identity, render, stop, aret, logout,
    after, session_token.
  cbn [auth state rendered ss_token].
  destruct t as [[tok |] |]; try (destruct (rq_delete_keyerror rq); reflexivity).
  destruct (truthy tok); [| destruct (rq_delete_keyerror rq); reflexivity].
  unfold lift. cbn [auth state rendered]. rewrite destroy_session_eq.
  destruct (rq_delete_keyerror rq); reflexivity.
Qed.

(** ** One run of the script *)

Lemma init_defaults_username ss :
  ss_username (init_defaults ss)
  = Some (match ss_username ss with Some u => u | None => None end).
Proof. destruct ss as [a [u |] t]; reflexivity. Qed.

(** A run by a tab that is authenticated goes straight to the pages. *)
Lemma serve_authenticated rq ss g :
  ss_authenticated ss = Some true ->
  serve rq ss g = authenticated_part rq (World g (init_defaults ss) []).
Proof.
  intros Ha. unfold serve, script, abind, _init_session_state, get_authenticated.
  cbn [auth state rendered]. unfold init_defaults at 1. cbn [ss_authenticated].
  rewrite Ha. reflexivity.
Qed.

(** A run by a tab that is not authenticated goes through the gate. *)
Lemma serve_gate rq ss g :
  ss_authenticated ss <> Some true ->
  serve rq ss g
  = match returned (auth_gate (rq_gate_now rq) (rq_cookies rq)) g with
    | Ok (Some (u, token)) =>
        authenticated_part rq
          (World (after (auth_gate (rq_gate_now rq) (rq_cookies rq)) g)
             (SessionState (Some true) (Some (Some u)) (Some (Some token))) [])
    | _ =>
        let r := _show_login_form rq
                   (World (after (auth_gate (rq_gate_now rq) (rq_cookies rq)) g)
                      (init_defaults ss) []) in
        (match r.1 with Returned _ => Stopped | e => e end, r.2)
    end.
Proof.
  intros Ha. unfold serve, script.
  unfold abind at 1. unfold _init_session_state at 1. cbn [auth state rendered].
  unfold abind at 1. unfold get_authenticated at 1. cbn [auth state rendered].
  assert (Hinit : ss_authenticated (init_defaults ss) = Some false).
  { destruct ss as [[[|] |] u t]; try reflexivity. contradiction. }
  rewrite Hinit. cbn [negb]. unfold abind at 1. unfold gate.
  unfold abind at 1. rewrite restore_from_cookie_eq. unfold restored.
  destruct (auth_gate_spec (rq_gate_now rq) (rq_cookies rq) g ""%string ""%string)
    as [[r Hr] _].
  rewrite Hr.
  destruct r as [[u token] |].
  - unfold abind at 1. unfold get_authenticated. cbn [auth state rendered ss_authenticated].
    cbn [negb]. reflexivity.
  - unfold abind at 1. unfold get_authenticated. cbn [auth state rendered].
    rewrite Hinit. cbn [negb]. unfold abind at 1. unfold stop.
    destruct (_show_login_form rq _) as [[[] | | e] w']; reflexivity.
Qed.

(** What the login form renders is neither the sidebar nor a page. *)
Lemma form_pass_public rq w r e :
  form_pass rq w r -> In e (rendered r.2) ->
  In e (rendered w) \/ (e <> PageRun /\ forall u, e <> Sidebar u).
Proof.
  intros Hpass Hin.
  assert (Hform : forall l, In e (rendered w ++ LoginForm :: l) ->
                    Forall (fun e' => e' <> PageRun /\ forall u, e' <> Sidebar u) l ->
                    In e (rendered w) \/ (e <> PageRun /\ forall u, e <> Sidebar u)).
  { intros l H Hl. apply in_app_or in H as [H | [<- | H]]; [auto | right | right].
    - split; [discriminate | intros; discriminate].
    - rewrite List.Forall_forall in Hl. auto. }
  destruct Hpass; cbn [snd rendered] in Hin;
    repeat rewrite <- app_assoc in Hin; cbn [app] in Hin;
    (eapply Hform; [exact Hin |]);
    repeat constructor; try discriminate; intros; discriminate.
Qed.

Lemma authenticated_part_sidebar rq g a u t :
  In (Sidebar u) (rendered (authenticated_part rq (World g (SessionState a (Some u) t) [])).2).
Proof.
  rewrite authenticated_part_eq. destruct (rq_logout rq); cbn; auto.
Qed.

Lemma authenticated_part_elements rq g a u t e :
  In e (rendered (authenticated_part rq (World g (SessionState a (Some u) t) [])).2) ->
  e = Sidebar u \/ e = PageRun \/ e = CookieDelete COOKIE_NAME.
Proof.
  rewrite authenticated_part_eq. destruct (rq_logout rq); cbn; intuition auto.
Qed.

Lemma serve_private rq ss g e :
  In e (rendered (serve rq ss g).2) ->
  e = PageRun \/ (exists u, e = Sidebar u) ->
  ss_authenticated ss = Some true
  \/ exists u token, returned (auth_gate (rq_gate_now rq) (rq_cookies rq)) g = Ok (Some (u, token))
                     /\ (e = PageRun \/ e = Sidebar (Some u)).
Proof.
  intros Hin He.
  destruct (decide (ss_authenticated ss = Some true)) as [Ha | Ha]; [auto | right].
  rewrite serve_gate in Hin by exact Ha.
  destruct (returned (auth_gate (rq_gate_now rq) (rq_cookies rq)) g) as [[[u token] |] | ex] eqn:Hr.
  - exists u, token. split; [reflexivity |].
    apply authenticated_part_elements in Hin as [-> | [-> | ->]]; auto.
    destruct He as [He | [u' He]]; discriminate.
  - cbn [snd] in Hin.
    pose proof (show_login_form_pass rq
                  (World (after (auth_gate (rq_gate_now rq) (rq_cookies rq)) g)
                     (init_defaults ss) [])) as Hpass.
    destruct (form_pass_public _ _ _ e Hpass Hin) as [[] | [H1 H2]].
    destruct He as [-> | [u' ->]]; [contradiction | exfalso; exact (H2 u' eq_refl)].
  - cbn [snd] in Hin.
    pose proof (show_login_form_pass rq
                  (World (after (auth_gate (rq_gate_now rq) (rq_cookies rq)) g)
                     (init_defaults ss) [])) as Hpass.
    destruct (form_pass_public _ _ _ e Hpass Hin) as [[] | [H1 H2]].
    destruct He as [-> | [u' ->]]; [contradiction | exfalso; exact (H2 u' eq_refl)].
Qed.

(** A run renders the sidebar or a page only for an identified tab: one
    whose session state already says authenticated, or one whose request
    carries in the cookie [auth_session] a non-empty token of a stored
    session that has not expired and has a non-empty owner; the sidebar
    then greets that owner. *)
Theorem pages_require_identity
    (rq : request) (ss : session_state) (g : globals) (e : element) :
  In e (rendered (serve rq ss g).2) ->
  e = PageRun \/ (exists u, e = Sidebar u) ->
  ss_authenticated ss = Some true
  \/ exists token s,
       request_cookie (rq_cookies rq) = Some token /\ token <> ""%string
       /\ _SESSION_STORE g !! token = Some s
       /\ rq_gate_now rq <= expires_at s
       /\ username s <> ""%string
       /\ (e = PageRun \/ e = Sidebar (Some (username s))).
Proof.
  intros Hin He.
  destruct (serve_private rq ss g e Hin He) as [Ha | (u & token & Hr & Hu)]; [auto | right].
  apply auth_gate_spec in Hr as (Hc & Htok & Hune & s & Hs & Hle & <-).
  exists token, s. auto 10.
Qed.

Lemma pages_require_identity_witness :
  ss_authenticated fresh_tab = Some true
  \/ exists token s,
       request_cookie (cookie_set COOKIE_NAME (token_of 0) ∅) = Some token
       /\ token <> ""%string
       /\ _SESSION_STORE (exec (Create 0 0 "alice") shipped) !! token = Some s
       /\ 5 <= expires_at s
       /\ username s <> ""%string
       /\ (PageRun = PageRun \/ PageRun = Sidebar (Some (username s))).
Proof.
  apply (pages_require_identity
           (Request (cookie_set COOKIE_NAME (token_of 0) ∅) None false 0 5 0 0 false)
           fresh_tab (exec (Create 0 0 "alice") shipped) PageRun).
  - vm_compute. auto.
  - left. reflexivity.
Defined.

(** ** Logging in *)

Lemma verify_user_true_iff u p g :
  returned (verify_user u (Utf8 p)) g = Ok true
  <-> _USERS g !! u = Some (Sha256.sha256_hexdigest p).
Proof.
  unfold returned. rewrite verify_user_text. cbn [fst].
  destruct (_USERS g !! u) as [h |]; [| split; discriminate].
  split.
  - intros [= H]. apply String.eqb_eq in H. congruence.
  - intros [= ->]. rewrite String.eqb_refl. reflexivity.
Qed.

Lemma auth_gate_no_cookie now cookies g :
  request_cookie cookies = None ->
  auth_gate now cookies g = (Ok None, g).
Proof. intros Hc. unfold auth_gate. rewrite Hc. reflexivity. Qed.

Lemma serve_login rq ss g u p :
  ss_authenticated ss <> Some true ->
  request_cookie (rq_cookies rq) = None ->
  rq_submitted rq = Some (u, p) ->
  expiry_representable g (rq_login_now rq) ->
  expiry_representable g (rq_login_utcnow rq) ->
  serve rq ss g
  = if negb (truthy u) || negb (truthy p) then
      (Stopped, World g (init_defaults ss) [LoginForm; ErrorBox MSG_ENTER_BOTH])
    else if decide (_USERS g !! u = Some (Sha256.sha256_hexdigest p)) then
      (Stopped,
       World (logged_in rq u g)
         (SessionState (Some true) (Some (Some u)) (Some (Some (token_of (rq_rnd rq)))))
         [LoginForm;
          CookieSet COOKIE_NAME (token_of (rq_rnd rq)) (expiry g (rq_login_utcnow rq))])
    else
      (Stopped,
       World (logged (UsersGet u) g) (init_defaults ss)
         [LoginForm; ErrorBox MSG_INVALID; TestAccounts]).
Proof.
  intros Ha Hc Hsub Hrep Hutc.
  rewrite serve_gate by exact Ha.
  unfold returned, after. rewrite (auth_gate_no_cookie _ _ _ Hc). cbn [fst snd].
  pose proof (show_login_form_pass rq (World g (init_defaults ss) [])) as Hpass.
  remember (_show_login_form rq (World g (init_defaults ss) [])) as r eqn:Hr.
  clear Hr.
  destruct Hpass as [Hs | u' p' Hs He | u' p' Hs Hu Hp Hv | u' p' Hs Hu Hp Hv Hno
                     | u' p' Hs Hu Hp Hv Hr1 Hno | u' p' Hs Hu Hp Hv Hr1 Hr2];
    rewrite Hsub in Hs; try discriminate Hs; injection Hs as <- <-;
    cbn [auth state rendered fst snd] in *.
  - destruct He as [-> | ->]; [reflexivity |]. rewrite orb_true_r. reflexivity.
  - rewrite Hu, Hp. cbn [negb orb]. case_decide as Hd; [| reflexivity].
    apply verify_user_true_iff in Hd. congruence.
  - contradiction.
  - contradiction.
  - rewrite Hu, Hp. cbn [negb orb]. apply verify_user_true_iff in Hv.
    case_decide; [reflexivity | contradiction].
Qed.

(** A login form submitted from a tab that is not authenticated and
    presents no cookie always ends the run with [st.stop()]. With an empty
    username or password it shows the "enter both" error and touches
    nothing. With credentials whose hash matches the credential table it
    stores a session for the username, sets the session state to that
    identity and hands the token to [cookie_manager.set]. Otherwise it
    shows the "invalid" error and leaves session store and session state
    alone. *)
Theorem login_form_outcome (rq : request) (ss : session_state) (g : globals) (u p : string) :
  ss_authenticated ss <> Some true ->
  request_cookie (rq_cookies rq) = None ->
  rq_submitted rq = Some (u, p) ->
  expiry_representable g (rq_login_now rq) ->
  expiry_representable g (rq_login_utcnow rq) ->
  (u = ""%string \/ p = ""%string ->
     serve rq ss g
     = (Stopped, World g (init_defaults ss) [LoginForm; ErrorBox MSG_ENTER_BOTH]))
  /\ (u <> ""%string -> p <> ""%string ->
      _USERS g !! u = Some (Sha256.sha256_hexdigest p) ->
      (serve rq ss g).1 = Stopped
      /\ rendered (serve rq ss g).2
         = [LoginForm;
            CookieSet COOKIE_NAME (token_of (rq_rnd rq)) (expiry g (rq_login_utcnow rq))]
      /\ state (serve rq ss g).2
         = SessionState (Some true) (Some (Some u)) (Some (Some (token_of (rq_rnd rq))))
      /\ _SESSION_STORE (auth (serve rq ss g).2)
         = <[token_of (rq_rnd rq) := Session u (rq_login_now rq) (expiry g (rq_login_now rq))]>
             (_SESSION_STORE g))
  /\ (u <> ""%string -> p <> ""%string ->
      _USERS g !! u <> Some (Sha256.sha256_hexdigest p) ->
      (serve rq ss g).1 = Stopped
      /\ rendered (serve rq ss g).2 = [LoginForm; ErrorBox MSG_INVALID; TestAccounts]
      /\ state (serve rq ss g).2 = init_defaults ss
      /\ _SESSION_STORE (auth (serve rq ss g).2) = _SESSION_STORE g).
Proof.
  intros Ha Hc Hsub Hrep Hutc.
  rewrite (serve_login rq ss g u p Ha Hc Hsub Hrep Hutc).
  split; [| split].
  - intros [-> | ->]; [reflexivity |]. rewrite orb_true_r. reflexivity.
  - intros Hu Hp Hl. destruct u; [contradiction |]. destruct p; [contradiction |].
    cbn [truthy negb orb]. case_decide; [| contradiction]. auto.
  - intros Hu Hp Hl. destruct u; [contradiction |]. destruct p; [contradiction |].
    cbn [truthy negb orb]. case_decide; [contradiction |]. auto.
Qed.

Lemma login_form_outcome_witness :
  (serve (Request ∅ (Some ("test1"%string, "test1"%string)) false 0 0 5 5 false) fresh_tab shipped).1
  = Stopped
  /\ rendered (serve (Request ∅ (Some ("test1"%string, "nope"%string)) false 0 0 5 5 false)
                 fresh_tab shipped).2
     = [LoginForm; ErrorBox MSG_INVALID; TestAccounts]
  /\ serve (Request ∅ (Some (""%string, "x"%string)) false 0 0 5 5 false) fresh_tab shipped
     = (Stopped, World shipped (init_defaults fresh_tab) [LoginForm; ErrorBox MSG_ENTER_BOTH]).
Proof.
  assert (Hrep : expiry_representable shipped 5)
    by (unfold expiry_representable; vm_compute; intuition discriminate).
  split; [| split].
  - destruct (login_form_outcome (Request ∅ (Some ("test1"%string, "test1"%string)) false 0 0 5 5 false)
                fresh_tab shipped "test1" "test1") as (_ & Hok & _);
      [discriminate | reflexivity | reflexivity | exact Hrep | exact Hrep |].
    apply Hok; [discriminate | discriminate | vm_compute; reflexivity].
  - destruct (login_form_outcome (Request ∅ (Some ("test1"%string, "nope"%string)) false 0 0 5 5 false)
                fresh_tab shipped "test1" "nope") as (_ & _ & Hbad);
      [discriminate | reflexivity | reflexivity | exact Hrep | exact Hrep |].
    apply Hbad; [discriminate | discriminate | vm_compute; discriminate].
  - destruct (login_form_outcome (Request ∅ (Some (""%string, "x"%string)) false 0 0 5 5 false)
                fresh_tab shipped "" "x") as (Hempty & _);
      [discriminate | reflexivity | reflexivity | exact Hrep | exact Hrep |].
    apply Hempty. left. reflexivity.
Defined.

(** ** Logging out *)

Lemma serve_logout rq g u token :
  rq_logout rq = true -> token <> ""%string ->
  serve rq (SessionState (Some true) (Some u) (Some (Some token))) g
  = (if rq_delete_keyerror rq then Raised (CookieKeyError COOKIE_NAME) else Stopped,
     World (after (destroy_session token) g) signed_out
       [Sidebar u; CookieDelete COOKIE_NAME]).
Proof.
  intros Hlo Htok. rewrite serve_authenticated by reflexivity.
  unfold init_defaults. cbn [ss_authenticated ss_username ss_token].
  rewrite authenticated_part_eq, Hlo.
  destruct token; [contradiction | reflexivity].
Qed.

(** Clicking logout in an authenticated tab removes the session of the
    tab's token from the store, resets the session state and hands the
    cookie to [cookie_manager.delete]; the run then stops, unless
    [cookie_manager.delete] raises its [KeyError], which ends the run
    instead of [st.stop()]. Either way the token is dead from then on: a
    later run of the signed-out tab that still presents it in the cookie
    renders neither the sidebar nor a page. *)
Theorem logout_revokes (rq : request) (g : globals) (u : option string) (token : string) :
  rq_logout rq = true -> token <> ""%string ->
  (serve rq (SessionState (Some true) (Some u) (Some (Some token))) g).1
  = (if rq_delete_keyerror rq then Raised (CookieKeyError COOKIE_NAME) else Stopped)
  /\ (serve rq (SessionState (Some true) (Some u) (Some (Some token))) g).2
     = World (after (destroy_session token) g) signed_out
         [Sidebar u; CookieDelete COOKIE_NAME]
  /\ _SESSION_STORE (after (destroy_session token) g) !! token = None
  /\ (forall rq' e,
        request_cookie (rq_cookies rq') = Some token ->
        In e (rendered (serve rq' signed_out (after (destroy_session token) g)).2) ->
        e <> PageRun /\ forall u', e <> Sidebar u').
Proof.
  intros Hlo Htok.
  assert (Hgone : _SESSION_STORE (after (destroy_session token) g) !! token = None).
  { unfold after. rewrite destroy_session_eq. cbn. apply lookup_delete_eq. }
  rewrite (serve_logout rq g u token Hlo Htok). cbn [fst snd].
  split; [reflexivity |]. split; [reflexivity |]. split; [exact Hgone |].
  intros rq' e Hc Hin.
  assert (Hpub : ~ (e = PageRun \/ exists u', e = Sidebar u')).
  { intros He.
    destruct (serve_private rq' signed_out _ e Hin He) as [Ha | (u' & tok & Hr & _)];
      [discriminate Ha |].
    apply auth_gate_spec in Hr as (Hc' & _ & _ & s & Hs & _).
    rewrite Hc in Hc'. injection Hc' as <-. congruence. }
  split; [intros ->; apply Hpub; auto | intros u' ->; apply Hpub; eauto].
Qed.

Lemma logout_revokes_witness :
  (serve (Request ∅ None true 0 0 0 0 true)
     (SessionState (Some true) (Some (Some "alice"%string)) (Some (Some (token_of 0))))
     (exec (Create 0 0 "alice") shipped)).1
  = Raised (CookieKeyError COOKIE_NAME)
  /\ (In PageRun
         (rendered (serve (Request (cookie_set COOKIE_NAME (token_of 0) ∅) None false 0 5 0 0
                             false)
                      signed_out
                      (after (destroy_session (token_of 0))
                         (exec (Create 0 0 "alice") shipped))).2) ->
      False).
Proof.
  destruct (logout_revokes (Request ∅ None true 0 0 0 0 true)
              (exec (Create 0 0 "alice") shipped)
              (Some "alice"%string) (token_of 0)) as (Hend & _ & _ & Hdead).
  - reflexivity.
  - vm_compute. discriminate.
  - split; [exact Hend |].
    intros Hin.
    assert (Hc : request_cookie (cookie_set COOKIE_NAME (token_of 0) ∅) = Some (token_of 0))
      by apply lookup_insert_eq.
    destruct (Hdead (Request (cookie_set COOKIE_NAME (token_of 0) ∅) None false 0 5 0 0 false)
                PageRun Hc Hin) as [Hne _].
    apply Hne. reflexivity.
Defined.

(** ** A tab that is already authenticated *)

(** A tab whose session state says authenticated is not checked again: a
    run without a logout click renders the sidebar and the page without a
    single access to the dictionaries of [auth.py], whatever cookie the
    request carries and whatever the session store holds, be the session
    expired or destroyed from another tab. *)
Theorem authenticated_tab_skips_gate (rq : request) (ss : session_state) (g : globals) :
  ss_authenticated ss = Some true ->
  rq_logout rq = false ->
  serve rq ss g
  = (Returned tt,
     World g (init_defaults ss)
       [Sidebar (match ss_username ss with Some u => u | None => None end); PageRun]).
Proof.
  intros Ha Hlo. rewrite serve_authenticated by exact Ha.
  pose proof (init_defaults_username ss) as Hu.
  destruct (init_defaults ss) as [a' u' t'] eqn:E. cbn [ss_username] in Hu. subst u'.
  rewrite authenticated_part_eq, Hlo. reflexivity.
Qed.

Lemma authenticated_tab_skips_gate_witness :
  serve (Request ∅ None false 0 0 0 0 false)
    (SessionState (Some true) (Some (Some "alice"%string)) (Some (Some (token_of 0))))
    (after (destroy_session (token_of 0)) (exec (Create 0 0 "alice") shipped))
  = (Returned tt,
     World (after (destroy_session (token_of 0)) (exec (Create 0 0 "alice") shipped))
       (SessionState (Some true) (Some (Some "alice"%string)) (Some (Some (token_of 0))))
       [Sidebar (Some "alice"%string); PageRun]).
Proof.
  apply (authenticated_tab_skips_gate (Request ∅ None false 0 0 0 0 false)
           (SessionState (Some true) (Some (Some "alice"%string)) (Some (Some (token_of 0))))).
  - reflexivity.
  - reflexivity.
Defined.

(** ** From the login to another tab *)

(** After a successful login in one tab, a fresh tab of the same browser,
    whose request carries the cookie the login handed to
    [cookie_manager.set], is let through the gate without a login, as the
    same user, at every clock reading up to the expiry of the session. *)
Theorem new_tab_auto_login
    (rq1 rq2 : request) (g : globals) (u p : string) (jar : gmap string string) :
  request_cookie (rq_cookies rq1) = None ->
  rq_submitted rq1 = Some (u, p) ->
  u <> ""%string -> p <> ""%string ->
  _USERS g !! u = Some (Sha256.sha256_hexdigest p) ->
  expiry_representable g (rq_login_now rq1) ->
  expiry_representable g (rq_login_utcnow rq1) ->
  rq_cookies rq2 = apply_cookies (rendered (serve rq1 fresh_tab g).2) jar ->
  rq_logout rq2 = false ->
  rq_gate_now rq2 <= expiry g (rq_login_now rq1) ->
  (serve rq2 fresh_tab (auth (serve rq1 fresh_tab g).2)).1 = Returned tt
  /\ rendered (serve rq2 fresh_tab (auth (serve rq1 fresh_tab g).2)).2
     = [Sidebar (Some u); PageRun]
  /\ state (serve rq2 fresh_tab (auth (serve rq1 fresh_tab g).2)).2
     = SessionState (Some true) (Some (Some u)) (Some (Some (token_of (rq_rnd rq1)))).
Proof.
  intros Hc Hsub Hu Hp Hl Hrep Hutc Hjar Hlo Hle.
  rewrite (serve_login rq1 fresh_tab g u p) in * by (assumption || discriminate).
  destruct u as [| c u']; [contradiction |]. destruct p as [| d p']; [contradiction |].
  cbn [truthy negb orb] in *. set (u := String c u') in *.
  case_decide; [| contradiction].
  cbn [snd fst auth rendered state] in *.
  cbn [apply_cookies foldl] in Hjar.
  assert (Hgate : returned (auth_gate (rq_gate_now rq2) (rq_cookies rq2)) (logged_in rq1 u g)
                  = Ok (Some (u, token_of (rq_rnd rq1)))).
  { apply auth_gate_spec. rewrite Hjar.
    split; [apply lookup_insert_eq |].
    split; [intros E; pose proof (token_truthy (rq_rnd rq1)) as Ht; rewrite E in Ht;
            discriminate |].
    split; [discriminate |].
    exists (Session u (rq_login_now rq1) (expiry g (rq_login_now rq1))).
    split; [apply lookup_insert_eq | auto]. }
  rewrite serve_gate by discriminate. rewrite Hgate.
  rewrite authenticated_part_eq, Hlo. auto.
Qed.

Lemma new_tab_auto_login_witness :
  rendered (serve (Request (cookie_set COOKIE_NAME (token_of 0) ∅) None false 0 86400000005 0 0 false)
              fresh_tab
              (auth (serve (Request ∅ (Some ("test1"%string, "test1"%string)) false 0 0 5 5 false)
                       fresh_tab shipped).2)).2
  = [Sidebar (Some "test1"%string); PageRun].
Proof.
  assert (Hrep : expiry_representable shipped 5)
    by (unfold expiry_representable; vm_compute; intuition discriminate).
  apply (new_tab_auto_login
           (Request ∅ (Some ("test1"%string, "test1"%string)) false 0 0 5 5 false)
           (Request (cookie_set COOKIE_NAME (token_of 0) ∅) None false 0 86400000005 0 0 false)
           shipped "test1" "test1" ∅).
  - reflexivity.
  - reflexivity.
  - discriminate.
  - discriminate.
  - vm_compute. reflexivity.
  - exact Hrep.
  - exact Hrep.
  - vm_compute. reflexivity.
  - reflexivity.
  - vm_compute. discriminate.
Defined.

(** ** Whose sessions the store holds *)

Lemma logout_sessions tok g :
  _USERS (after (logout tok) g) = _USERS g
  /\ (forall t s, _SESSION_STORE (after (logout tok) g) !! t = Some s ->
                  _SESSION_STORE g !! t = Some s).
Proof.
  unfold after, logout. destruct tok as [tok |]; [| cbn; auto].
  destruct (truthy tok); [| cbn; auto].
  rewrite destroy_session_eq. cbn. split; [reflexivity |].
  intros t s H. apply lookup_delete_Some in H. tauto.
Qed.

Lemma authenticated_part_sessions rq g ss out :
  _USERS (auth (authenticated_part rq (World g (init_defaults ss) out)).2) = _USERS g
  /\ (forall t s,
        _SESSION_STORE (auth (authenticated_part rq (World g (init_defaults ss) out)).2) !! t
        = Some s ->
        _SESSION_STORE g !! t = Some s).
Proof.
  pose proof (init_defaults_username ss) as Hu.
  destruct (init_defaults ss) as [a' u' t'] eqn:E. cbn [ss_username] in Hu. subst u'.
  rewrite authenticated_part_eq.
  destruct (rq_logout rq); cbn [snd auth]; [apply logout_sessions | auto].
Qed.

(** The sessions in the store after a run were there before, or belong to
    the non-empty username the run's login form was submitted with,
    together with a password whose hash is in the credential table. *)
Lemma serve_sessions rq ss g :
  _USERS (auth (serve rq ss g).2) = _USERS g
  /\ (forall t s,
        _SESSION_STORE (auth (serve rq ss g).2) !! t = Some s ->
        _SESSION_STORE g !! t = Some s
        \/ (username s <> ""%string
            /\ exists p, _USERS g !! username s = Some (Sha256.sha256_hexdigest p))).
Proof.
  destruct (decide (ss_authenticated ss = Some true)) as [Ha | Ha].
  { rewrite serve_authenticated by exact Ha.
    destruct (authenticated_part_sessions rq g ss []) as [Hu Hs]. split; [exact Hu | auto]. }
  rewrite serve_gate by exact Ha.
  destruct (auth_gate_config (rq_gate_now rq) (rq_cookies rq) g) as (Hu1 & _ & Hs1).
  set (g1 := after (auth_gate (rq_gate_now rq) (rq_cookies rq)) g) in *.
  destruct (returned (auth_gate (rq_gate_now rq) (rq_cookies rq)) g) as [[[u token] |] | ex].
  - change (SessionState (Some true) (Some (Some u)) (Some (Some token)))
      with (init_defaults (SessionState (Some true) (Some (Some u)) (Some (Some token)))).
    destruct (authenticated_part_sessions rq g1
                (SessionState (Some true) (Some (Some u)) (Some (Some token))) [])
      as [Hu Hs].
    split; [congruence | auto].
  - cbn [snd].
    pose proof (show_login_form_pass rq (World g1 (init_defaults ss) [])) as Hpass.
    remember (_show_login_form rq (World g1 (init_defaults ss) [])) as r eqn:Hr. clear Hr.
    destruct Hpass as [Hsub | u p Hsub He | u p Hsub Htu Htp Hv | u p Hsub Htu Htp Hv Hno
                       | u p Hsub Htu Htp Hv Hr1 Hno | u p Hsub Htu Htp Hv Hr1 Hr2];
      cbn [snd auth state rendered] in *; (split; [exact Hu1 || auto |]); auto.
    + intros t s H. cbn in H.
      apply lookup_insert_Some in H as [[_ <-] | [_ H]]; [right | auto].
      cbn [username]. split; [intros ->; discriminate |].
      exists p. apply verify_user_true_iff in Hv. congruence.
    + intros t s H. cbn in H.
      apply lookup_insert_Some in H as [[_ <-] | [_ H]]; [right | auto].
      cbn [username]. split; [intros ->; discriminate |].
      exists p. apply verify_user_true_iff in Hv. congruence.
  - cbn [snd].
    pose proof (show_login_form_pass rq (World g1 (init_defaults ss) [])) as Hpass.
    remember (_show_login_form rq (World g1 (init_defaults ss) [])) as r eqn:Hr. clear Hr.
    destruct Hpass as [Hsub | u p Hsub He | u p Hsub Htu Htp Hv | u p Hsub Htu Htp Hv Hno
                       | u p Hsub Htu Htp Hv Hr1 Hno | u p Hsub Htu Htp Hv Hr1 Hr2];
      cbn [snd auth state rendered] in *; (split; [exact Hu1 || auto |]); auto.
    + intros t s H. cbn in H.
      apply lookup_insert_Some in H as [[_ <-] | [_ H]]; [right | auto].
      cbn [username]. split; [intros ->; discriminate |].
      exists p. apply verify_user_true_iff in Hv. congruence.
    + intros t s H. cbn in H.
      apply lookup_insert_Some in H as [[_ <-] | [_ H]]; [right | auto].
      cbn [username]. split; [intros ->; discriminate |].
      exists p. apply verify_user_true_iff in Hv. congruence.
Qed.

(** Through the script, sessions are only ever created for users with
    credentials: after any number of runs, by any tabs with any requests,
    on a module booted with the credential table [users], every session
    in the store is owned by a non-empty username that is in [users] with
    the hash of some password. *)
Theorem served_sessions_have_credentials
    (hours : Z) (users : gmap string string) (runs : list (request * session_state))
    (token : string) (s : session) :
  _SESSION_STORE (serve_all runs (boot hours users)) !! token = Some s ->
  username s <> ""%string
  /\ exists p, users !! username s = Some (Sha256.sha256_hexdigest p).
Proof.
  assert (Hgen : forall runs g,
            _USERS g = users ->
            (forall t s', _SESSION_STORE g !! t = Some s' ->
               username s' <> ""%string
               /\ exists p, users !! username s' = Some (Sha256.sha256_hexdigest p)) ->
            forall t s', _SESSION_STORE (serve_all runs g) !! t = Some s' ->
               username s' <> ""%string
               /\ exists p, users !! username s' = Some (Sha256.sha256_hexdigest p)).
  { clear. induction runs as [| [rq ss] runs IH]; intros g Hu Hg; [exact Hg |].
    cbn [serve_all foldl fst snd].
    fold (serve_all runs (auth (serve rq ss g).2)).
    destruct (serve_sessions rq ss g) as [Hu' Hs'].
    apply IH; [congruence |].
    intros t s' H. apply Hs' in H as [H | H]; [eauto |]. rewrite Hu in H. exact H. }
  apply (Hgen runs (boot hours users) eq_refl).
  intros t s' H. cbn in H. rewrite lookup_empty in H. discriminate.
Qed.

Lemma served_sessions_have_credentials_witness :
  username (Session "test1" 5 86400000005) <> ""%string
  /\ exists p, _USERS shipped !! username (Session "test1" 5 86400000005)
               = Some (Sha256.sha256_hexdigest p).
Proof.
  apply (served_sessions_have_credentials 24 (_USERS shipped)
           [(Request ∅ (Some ("bob"%string, "guess"%string)) false 1 0 3 3 false, fresh_tab);
            (Request ∅ (Some ("test1"%string, "test1"%string)) false 0 0 5 5 false, fresh_tab)]
           (token_of 0)).
  vm_compute. reflexivity.
Defined.

(** ** The home page *)

Lemma length_substring_le s : forall n m, (String.length (substring n m s) <= m)%nat.
Proof.
  induction s as [| c s IH]; intros n m.
  - destruct n, m; cbn; lia.
  - destruct n as [| n].
    + destruct m as [| m]; cbn; [lia |]. specialize (IH 0%nat m). lia.
    + cbn. apply IH.
Qed.

(** The home page shows at most the first eight characters of what the
    session state holds as token, and after a login exactly the first
    eight characters of the 36 of the token. *)
Theorem home_shows_token_prefix (ss : session_state) (rnd : Z) (u : option string) :
  (String.length (home_token_prefix ss) <= 8)%nat
  /\ home_token_prefix (SessionState (Some true) (Some u) (Some (Some (token_of rnd))))
     = substring 0 8 (token_of rnd)
  /\ String.length (substring 0 8 (token_of rnd)) = 8%nat.
Proof.
  split; [apply length_substring_le |]. split; [reflexivity |].
  unfold token_of, Uuid.uuid_str.
  generalize (Uuid.uuid4 rnd). intros x.
  cbn -[Z.land Z.shiftr Hex.hex_char]. reflexivity.
Qed.

Lemma authenticated_part_page rq g a u t :
  In PageRun (rendered (authenticated_part rq (World g (SessionState a (Some u) t) [])).2) ->
  state (authenticated_part rq (World g (SessionState a (Some u) t) [])).2
  = SessionState a (Some u) t.
Proof.
  rewrite authenticated_part_eq. destruct (rq_logout rq); cbn [snd rendered state]; [| auto].
  cbn. intros [H | [H | []]]; discriminate H.
Qed.

(** In every run of [app.py] that gets as far as [pg.run()], the session
    state the page reads has the key ["username"]: [_init_session_state]
    or the gate has put it there. So the greeting of the home page never
    falls back to its default ["User"]; it is the stored username, and the
    text of [None] for a tab that has none. *)
Theorem home_greeting_in_run (rq : request) (ss : session_state) (g : globals) :
  In PageRun (rendered (serve rq ss g).2) ->
  ss_username (state (serve rq ss g).2) <> None
  /\ home_greeting (state (serve rq ss g).2)
     = match ss_username (state (serve rq ss g).2) with
       | Some (Some u) => u
       | _ => "None"%string
       end.
Proof.
  intros Hin.
  assert (Hkey : ss_username (state (serve rq ss g).2) <> None).
  { destruct (decide (ss_authenticated ss = Some true)) as [Ha | Ha].
    - rewrite serve_authenticated in * by exact Ha.
      pose proof (init_defaults_username ss) as Hu.
      destruct (init_defaults ss) as [a' u' t'] eqn:E. cbn [ss_username] in Hu. subst u'.
      rewrite authenticated_part_page by exact Hin. discriminate.
    - rewrite serve_gate in * by exact Ha.
      destruct (returned (auth_gate (rq_gate_now rq) (rq_cookies rq)) g)
        as [[[u token] |] | ex].
      + rewrite authenticated_part_page by exact Hin. discriminate.
      + cbn [snd] in Hin. exfalso.
        pose proof (show_login_form_pass rq
                      (World (after (auth_gate (rq_gate_now rq) (rq_cookies rq)) g)
                         (init_defaults ss) [])) as Hpass.
        destruct (form_pass_public _ _ _ PageRun Hpass Hin) as [[] | [H _]].
        apply H. reflexivity.
      + cbn [snd] in Hin. exfalso.
        pose proof (show_login_form_pass rq
                      (World (after (auth_gate (rq_gate_now rq) (rq_cookies rq)) g)
                         (init_defaults ss) [])) as Hpass.
        destruct (form_pass_public _ _ _ PageRun Hpass Hin) as [[] | [H _]].
        apply H. reflexivity. }
  split; [exact Hkey |].
  unfold home_greeting.
  destruct (ss_username (state (serve rq ss g).2)) as [[u |] |]; [reflexivity .. | contradiction].
Qed.

Lemma home_greeting_in_run_witness :
  home_greeting
    (state (serve (Request (cookie_set COOKIE_NAME (token_of 0) ∅) None false 0 5 0 0 false)
              fresh_tab (exec (Create 0 0 "alice") shipped)).2)
  = match ss_username
            (state (serve (Request (cookie_set COOKIE_NAME (token_of 0) ∅) None false 0 5 0 0
                             false)
                      fresh_tab (exec (Create 0 0 "alice") shipped)).2) with
    | Some (Some u) => u
    | _ => "None"%string
    end.
Proof.
  apply (home_greeting_in_run
           (Request (cookie_set COOKIE_NAME (token_of 0) ∅) None false 0 5 0 0 false)
           fresh_tab (exec (Create 0 0 "alice") shipped)).
  vm_compute. auto.
Defined.
